(** * SonoBus soundboard model: [SoundSample], [Soundboard] and their
    (de)serialisation to [juce::ValueTree], plus the state of the
    [SampleEditView] dialog.

    Sources embedded here:
    - [Source/Soundboard.cpp]   (constructors, getters, setters, serialize,
      deserialize of both classes);
    - [Source/SampleEditView.h] (the dialog's fields and inline queries).

    [juce::ValueTree] is a reference-counted handle to a shared node, so the
    trees live in an explicit store and a handle is an address into it: the
    serialiser of [Soundboard] attaches the "samples" node to its parent
    first and fills it afterwards through a second handle. *)

From stdpp Require Import base numbers list strings pretty.

Local Open Scope string_scope.
Local Open Scope list_scope.
Local Open Scope Z_scope.

(** ** A state monad, used for the code that threads the tree store *)

Definition M (S A : Type) : Type := S → A * S.

#[global] Instance M_ret {S} : MRet (M S) := λ A a s, (a, s).

#[global] Instance M_bind {S} : MBind (M S) :=
  λ A B k m s, let '(a, s') := m s in k a s'.

Definition gets {S A} (f : S → A) : M S A := λ s, (f s, s).

(** ** juce::String, juce::Identifier and juce::var *)

Abbreviation String := string (only parsing).
Abbreviation Identifier := string (only parsing).

(** The text conversions of [juce::String] that [juce::var] relies on.  They
    depend on the platform's character tables, so the model is parametric
    in them. *)
Class StringOps : Type := {
(** [String (int)] and [String (int64)]: the decimal text of a number. *)
String_fromInt : Z → String;
(** [String::getIntValue]. *)
String_getIntValue : String → Z;
(** [String::trim]. *)
String_trim : String → String;
(** [String::equalsIgnoreCase]. *)
String_equalsIgnoreCase : String → String → bool
}.

(** A C++ [int] is 32 bits wide: the cast from a wider integer wraps. *)
Definition int_cast (z : Z) : Z :=
  let r := z mod 2 ^ 32 in
  if r <? 2 ^ 31 then r else r - 2 ^ 32.

(** [juce::var].  The variants the soundboard code stores or reads are kept
    as they are; the remaining ones (double, object, array, binary data,
    method, undefined) are represented by what the three conversions used
    in this program return for them. *)
Inductive var : Type :=
  | VVoid
  | VInt (intValue : Z)
  | VInt64 (int64Value : Z)
  | VBool (boolValue : bool)
  | VString (stringValue : String)
  | VOther (asInt : Z) (asBool : bool) (asString : String).

Section VarConversions.
Context `{StringOps}.

(** [var::operator String() const]. *)
Definition var_toString (v : var) : String :=
  match v with
  | VVoid => ""
  | VInt n => String_fromInt n
  | VInt64 n => String_fromInt n
  | VBool b => if b then "1" else "0"
  | VString s => s
  | VOther _ _ s => s
  end.

(** [var::operator bool() const]. *)
Definition var_toBool (v : var) : bool :=
  match v with
  | VVoid => false
  | VInt n => negb (n =? 0)
  | VInt64 n => negb (n =? 0)
  | VBool b => b
  | VString s =>
      negb (String_getIntValue s =? 0)
      || String_equalsIgnoreCase (String_trim s) "true"
      || String_equalsIgnoreCase (String_trim s) "yes"
  | VOther _ b _ => b
  end.

(** [var::operator int() const]. *)
Definition var_toInt (v : var) : Z :=
  match v with
  | VVoid => 0
  | VInt n => n
  | VInt64 n => int_cast n
  | VBool b => if b then 1 else 0
  | VString s => String_getIntValue s
  | VOther n _ _ => n
  end.
End VarConversions.

(** ** juce::NamedValueSet: an ordered array of named values *)

Abbreviation NamedValueSet := (list (Identifier * var)) (only parsing).

(** [NamedValueSet::getVarPointer]: the first entry of that name. *)
Fixpoint NamedValueSet_getVarPointer (values : NamedValueSet) (name : Identifier)
  : option var :=
  match values with
  | [] => None
  | (n, v) :: rest =>
      if decide (n = name) then Some v else NamedValueSet_getVarPointer rest name
  end.

(** [NamedValueSet::operator[]]: the value, or the void var. *)
Definition NamedValueSet_get (values : NamedValueSet) (name : Identifier) : var :=
  match NamedValueSet_getVarPointer values name with
  | Some v => v
  | None => VVoid
  end.

(** [NamedValueSet::getWithDefault]. *)
Definition NamedValueSet_getWithDefault
    (values : NamedValueSet) (name : Identifier) (defaultReturnValue : var) : var :=
  match NamedValueSet_getVarPointer values name with
  | Some v => v
  | None => defaultReturnValue
  end.

(** [NamedValueSet::contains]. *)
Definition NamedValueSet_contains (values : NamedValueSet) (name : Identifier) : bool :=
  match NamedValueSet_getVarPointer values name with
  | Some _ => true
  | None => false
  end.

(** [NamedValueSet::set]: overwrite the entry of that name where it stands,
    or add a new entry at the end. *)
Fixpoint NamedValueSet_set (values : NamedValueSet) (name : Identifier) (newValue : var)
  : NamedValueSet :=
  match values with
  | [] => [(name, newValue)]
  | (n, v) :: rest =>
      if decide (n = name) then (n, newValue) :: rest
      else (n, v) :: NamedValueSet_set rest name newValue
  end.

(** ** juce::ValueTree: handles into a store of shared nodes *)

Abbreviation addr := nat (only parsing).

(** [ValueTree::SharedObject]. *)
Record SharedObject : Type := mkSharedObject {
  type : Identifier;
  properties : list (Identifier * var);
  children : list nat;
  parent : option nat
}.

Abbreviation store := (list SharedObject) (only parsing).

(** A [ValueTree] is a pointer to its shared node; the invalid tree
    ([ValueTree()]) is the null pointer. *)
Abbreviation ValueTree := (option nat) (only parsing).

Definition with_properties (o : SharedObject) (p : list (Identifier * var)) : SharedObject :=
  {| type := type o; properties := p; children := children o; parent := parent o |}.

Definition with_children (o : SharedObject) (c : list nat) : SharedObject :=
  {| type := type o; properties := properties o; children := c; parent := parent o |}.

Definition with_parent (o : SharedObject) (p : option nat) : SharedObject :=
  {| type := type o; properties := properties o; children := children o; parent := p |}.

(** The node a handle points to.  Reference counting keeps every node
    alive while a handle to it exists; an address outside the store reads
    as the null pointer. *)
Definition deref (σ : store) (t : ValueTree) : option SharedObject :=
  a ← t; σ !! a.

(** [ValueTree::ValueTree (const Identifier& type)]: a new node without
    properties, children or parent. *)
Definition ValueTree_new (ty : Identifier) : M store ValueTree :=
  λ σ, (Some (length σ), σ ++ [mkSharedObject ty [] [] None]).

(** [ValueTree::getType]; the invalid tree has the null identifier. *)
Definition ValueTree_getType (σ : store) (t : ValueTree) : Identifier :=
  match deref σ t with
  | Some o => type o
  | None => ""
  end.

(** [ValueTree::hasProperty]. *)
Definition ValueTree_hasProperty (σ : store) (t : ValueTree) (name : Identifier) : bool :=
  match deref σ t with
  | Some o => NamedValueSet_contains (properties o) name
  | None => false
  end.

(** [ValueTree::getProperty (const Identifier&)]. *)
Definition ValueTree_getProperty (σ : store) (t : ValueTree) (name : Identifier) : var :=
  match deref σ t with
  | Some o => NamedValueSet_get (properties o) name
  | None => VVoid
  end.

(** [ValueTree::getProperty (const Identifier&, const var& defaultReturnValue)]. *)
Definition ValueTree_getProperty_default
    (σ : store) (t : ValueTree) (name : Identifier) (defaultReturnValue : var) : var :=
  match deref σ t with
  | Some o => NamedValueSet_getWithDefault (properties o) name defaultReturnValue
  | None => defaultReturnValue
  end.

(** [ValueTree::setProperty] without undo manager (no listener is attached
    to the trees of this program, so the change messages reach nobody). *)
Definition ValueTree_setProperty (t : ValueTree) (name : Identifier) (newValue : var)
  : M store unit :=
  λ σ, match t with
       | Some a =>
           match σ !! a with
           | Some o =>
               (tt, <[a := with_properties o (NamedValueSet_set (properties o) name newValue)]> σ)
           | None => (tt, σ)
           end
       | None => (tt, σ)
       end.

(** [ValueTree::getNumChildren]. *)
Definition ValueTree_getNumChildren (σ : store) (t : ValueTree) : nat :=
  match deref σ t with
  | Some o => length (children o)
  | None => 0%nat
  end.

(** [ValueTree::getChild (int index)]: the invalid tree when the index is
    out of range. *)
Definition ValueTree_getChild (σ : store) (t : ValueTree) (index : Z) : ValueTree :=
  match deref σ t with
  | Some o => if 0 <=? index then children o !! Z.to_nat index else None
  | None => None
  end.

(** [ValueTree::getChildWithName]: the first child of that type, or the
    invalid tree. *)
Fixpoint first_with_type (σ : store) (cs : list nat) (typeToMatch : Identifier) : ValueTree :=
  match cs with
  | [] => None
  | c :: rest =>
      match σ !! c with
      | Some o =>
          if decide (type o = typeToMatch) then Some c
          else first_with_type σ rest typeToMatch
      | None => first_with_type σ rest typeToMatch
      end
  end.

Definition ValueTree_getChildWithName (σ : store) (t : ValueTree) (typeToMatch : Identifier)
  : ValueTree :=
  match deref σ t with
  | Some o => first_with_type σ (children o) typeToMatch
  | None => None
  end.

(** [ReferenceCountedArray::indexOf]: the position of the first occurrence. *)
Fixpoint Array_indexOf (l : list nat) (x : nat) : option nat :=
  match l with
  | [] => None
  | y :: rest => if decide (y = x) then Some 0%nat else S <$> Array_indexOf rest x
  end.

(** [ReferenceCountedArray::insert]: at the index when it lies inside the
    array, at the end otherwise. *)
Definition Array_insert (indexToInsertAt : Z) (x : nat) (l : list nat) : list nat :=
  if (0 <=? indexToInsertAt) && (indexToInsertAt <? Z.of_nat (length l))
  then take (Z.to_nat indexToInsertAt) l ++ x :: drop (Z.to_nat indexToInsertAt) l
  else l ++ [x].

(** [SharedObject::isAChildOf]: walk up the parent pointers, looking for
    [possibleParent].  Nodes built by [addChild] form a forest, so the walk
    ends within as many steps as the store has nodes. *)
Fixpoint parent_chain_has (σ : store) (steps : nat) (p : option nat) (possibleParent : nat)
  : bool :=
  match steps with
  | O => false
  | S steps' =>
      match p with
      | None => false
      | Some a =>
          if decide (a = possibleParent) then true
          else match σ !! a with
               | Some o => parent_chain_has σ steps' (parent o) possibleParent
               | None => false
               end
      end
  end.

Definition SharedObject_isAChildOf (σ : store) (this possibleParent : nat) : bool :=
  match σ !! this with
  | Some o => parent_chain_has σ (length σ) (parent o) possibleParent
  | None => false
  end.

(** [SharedObject::removeChild (int childIndex, nullptr)]. *)
Definition SharedObject_removeChild (this : nat) (childIndex : option nat) (σ : store) : store :=
  match σ !! this, childIndex with
  | Some o, Some i =>
      match children o !! i with
      | Some child =>
          let σ1 := <[this := with_children o (delete i (children o))]> σ in
          match σ1 !! child with
          | Some c => <[child := with_parent c None]> σ1
          | None => σ1
          end
      | None => σ
      end
  | _, _ => σ
  end.

(** [SharedObject::addChild (SharedObject* child, int index, nullptr)]. *)
Definition SharedObject_addChild (this child : nat) (index : Z) (σ : store) : store :=
  match σ !! child with
  | None => σ
  | Some c =>
      if decide (parent c = Some this) then σ
      else if bool_decide (child = this) || SharedObject_isAChildOf σ this child then σ
      else
        let σ1 :=
          match parent c with
          | Some p =>
              match σ !! p with
              | Some po => SharedObject_removeChild p (Array_indexOf (children po) child) σ
              | None => σ
              end
          | None => σ
          end in
        match σ1 !! this with
        | Some o =>
            let σ2 := <[this := with_children o (Array_insert index child (children o))]> σ1 in
            match σ2 !! child with
            | Some c' => <[child := with_parent c' (Some this)]> σ2
            | None => σ2
            end
        | None => σ1
        end
  end.

(** [ValueTree::addChild (const ValueTree& child, int index, nullptr)]. *)
Definition ValueTree_addChild (t child : ValueTree) (index : Z) : M store unit :=
  λ σ, match t, child with
       | Some this, Some c =>
           match σ !! this with
           | Some _ => (tt, SharedObject_addChild this c index σ)
           | None => (tt, σ)
           end
       | _, _ => (tt, σ)
       end.

(** ** Member functions: a receiver next to the tree store *)

Record Obj (T : Type) : Type := mkObj { this : T; heap : list SharedObject }.
Arguments mkObj {T} this heap.
Arguments this {T} o.
Arguments heap {T} o.

(** A tree operation run from inside a member function. *)
Definition liftH {T A} (m : M store A) : M (Obj T) A :=
  λ st, let '(a, σ') := m (heap st) in (a, mkObj (this st) σ').

(** ** Constants of headers that are not among the sources *)

Module SonoPlaybackProgressButton.
(** [SonoPlaybackProgressButton::DEFAULT_BUTTON_COLOUR] is declared in
    SonoPlaybackProgressButton.h; it is an [int], as the elements of
    [SampleEditView::BUTTON_COLOURS] are. *)
Class Constants : Type := { DEFAULT_BUTTON_COLOUR : Z }.

(** The other colours of the same header, which
    [SampleEditView::BUTTON_COLOURS] lists. *)
Class Colours : Type := {
  RED : Z;
  ORANGE : Z;
  YELLOW : Z;
  YELLOW_GREEN : Z;
  GREEN : Z;
  CYAN : Z;
  BLUE : Z;
  PURPLE : Z;
  PINK : Z;
  WHITE : Z
}.
End SonoPlaybackProgressButton.

(** ** SoundSample (Soundboard.cpp) *)

Module SoundSample.

(** The attribute keys are declared in Soundboard.h. *)
Class Keys : Type := {
  NAME_KEY : Identifier;
  FILE_PATH_KEY : Identifier;
  LOOP_KEY : Identifier;
  BUTTON_COLOUR_KEY : Identifier
}.

(** Modelled from the spec: the tag of a sample node, declared in
    Soundboard.h; the persisted layout names it "sample". *)
Definition SAMPLE_KEY : Identifier := "sample".

Record t : Type := mk {
  name : String;
  filePath : String;
  loop : bool;
  buttonColour : Z
}.

(** [SoundSample::SoundSample]. *)
Definition new (newName newFilePath : String) (newLoop : bool) (buttonColour : Z) : t :=
  {| name := newName; filePath := newFilePath; loop := newLoop;
     buttonColour := buttonColour |}.

Definition getName (this : t) : String := name this.

Definition setName (newName : String) (this : t) : t :=
  {| name := newName; filePath := filePath this; loop := loop this;
     buttonColour := buttonColour this |}.

Definition getFilePath (this : t) : String := filePath this.

Definition setFilePath (newFilePath : String) (this : t) : t :=
  {| name := name this; filePath := newFilePath; loop := loop this;
     buttonColour := buttonColour this |}.

Definition isLoop (this : t) : bool := loop this.

Definition setLoop (newLoop : bool) (this : t) : t :=
  {| name := name this; filePath := filePath this; loop := newLoop;
     buttonColour := buttonColour this |}.

Definition getButtonColour (this : t) : Z := buttonColour this.

Definition setButtonColour (newRgb : Z) (this : t) : t :=
  {| name := name this; filePath := filePath this; loop := loop this;
     buttonColour := newRgb |}.

Section Serialisation.
Context `{StringOps} `{Keys} `{SonoPlaybackProgressButton.Constants}.

(** [SoundSample::serialize]. *)
Definition serialize : M (Obj t) ValueTree :=
  tree ← liftH (ValueTree_new SAMPLE_KEY);
  n ← gets (λ st, name (this st));
  liftH (ValueTree_setProperty tree NAME_KEY (VString n));;
  f ← gets (λ st, filePath (this st));
  liftH (ValueTree_setProperty tree FILE_PATH_KEY (VString f));;
  l ← gets (λ st, loop (this st));
  liftH (ValueTree_setProperty tree LOOP_KEY (VBool l));;
  c ← gets (λ st, buttonColour (this st));
  liftH (ValueTree_setProperty tree BUTTON_COLOUR_KEY (VInt c));;
  mret tree.

(** [SoundSample::deserialize]. *)
Definition deserialize (σ : store) (tree : ValueTree) : t :=
  new
    (var_toString (ValueTree_getProperty σ tree NAME_KEY))
    (var_toString (ValueTree_getProperty σ tree FILE_PATH_KEY))
    (var_toBool (ValueTree_getProperty_default σ tree LOOP_KEY (VBool false)))
    (var_toInt (ValueTree_getProperty_default σ tree BUTTON_COLOUR_KEY
                  (VInt SonoPlaybackProgressButton.DEFAULT_BUTTON_COLOUR))).
End Serialisation.

End SoundSample.

(** ** Soundboard (Soundboard.cpp) *)

Module Soundboard.

(** The attribute key is declared in Soundboard.h. *)
Class Keys : Type := { NAME_KEY : Identifier }.

(** Modelled from the spec: the tags of the soundboard node and of its
    child holding the samples, declared in Soundboard.h; the persisted
    layout names them "soundboard" and "samples". *)
Definition SOUNDBOARD_KEY : Identifier := "soundboard".
Definition SAMPLES_KEY : Identifier := "samples".

Record t : Type := mk {
  name : String;
  samples : list SoundSample.t
}.

(** [Soundboard::Soundboard]. *)
Definition new (newName : String) : t := {| name := newName; samples := [] |}.

Definition getName (this : t) : String := name this.

Definition setName (newName : String) (this : t) : t :=
  {| name := newName; samples := samples this |}.

Definition getSamples (this : t) : list SoundSample.t := samples this.

(** [samples.emplace_back (...)] on the reference [getSamples] returns. *)
Definition emplace_back (this : t) (s : SoundSample.t) : t :=
  {| name := name this; samples := samples this ++ [s] |}.

(** A member function of the [k]-th element of [samples], called through
    a reference to the element. *)
Definition on_sample {A} (k : nat) (sample : SoundSample.t)
    (m : M (Obj SoundSample.t) A) : M (Obj t) A :=
  λ st, let '(a, st') := m (mkObj sample (heap st)) in
        (a, mkObj {| name := name (this st);
                     samples := <[k := this st']> (samples (this st)) |}
                  (heap st')).

Section Serialisation.
Context `{StringOps} `{SoundSample.Keys} `{Keys}
        `{SonoPlaybackProgressButton.Constants}.

(** The range-for loop of [Soundboard::serialize]: [k] is the position
    of the iterator, [i] the counter the body increments. *)
Fixpoint serialize_samples (remaining k : nat) (samplesTree : ValueTree) (i : Z)
  : M (Obj t) unit :=
  match remaining with
  | O => mret tt
  | S remaining' =>
      it ← gets (λ st, samples (this st) !! k);
      match it with
      | None => mret tt
      | Some sample =>
          child ← on_sample k sample SoundSample.serialize;
          liftH (ValueTree_addChild samplesTree child i);;
          serialize_samples remaining' (S k) samplesTree (i + 1)
      end
  end.

(** [Soundboard::serialize]. *)
Definition serialize : M (Obj t) ValueTree :=
  tree ← liftH (ValueTree_new SOUNDBOARD_KEY);
  n ← gets (λ st, name (this st));
  liftH (ValueTree_setProperty tree NAME_KEY (VString n));;
  samplesTree ← liftH (ValueTree_new SAMPLES_KEY);
  liftH (ValueTree_addChild tree samplesTree 0);;
  size ← gets (λ st, length (samples (this st)));
  serialize_samples size 0 samplesTree 0;;
  mret tree.

(** [Soundboard::deserialize]. *)
Definition deserialize (σ : store) (tree : ValueTree) : t :=
  let soundboard := new (var_toString (ValueTree_getProperty σ tree NAME_KEY)) in
  let samplesTree := ValueTree_getChildWithName σ tree SAMPLES_KEY in
  fold_left
    (λ soundboard i,
       emplace_back soundboard
         (SoundSample.deserialize σ (ValueTree_getChild σ samplesTree (Z.of_nat i))))
    (seq 0 (ValueTree_getNumChildren σ samplesTree))
    soundboard.
End Serialisation.

End Soundboard.


(** ** SampleEditView (SampleEditView.h) *)

Module SampleEditView.


(** The memory of the code that opens the dialog: the samples a
    [const SoundSample*] may point to and the strings a [String*] may
    point to. *)
Record Memory : Type := mkMemory {
  soundSamples : list SoundSample.t;
  strings : list String
}.

(** The data members of the dialog.  The two text editors are kept as the
    text they hold and the colour buttons as the colour of the button that
    is selected; the layout boxes, labels and other buttons carry no data
    of the sample.  [submitCallback] is a function over the dialog itself,
    so it is not a field here: each call of it is an entry of the report
    list the operations return. *)
Record t : Type := mk {
  editModeEnabled : bool;
  deleteSample : bool;
  initialName : String;
  initialFilePath : String;
  lastOpenedDirectory : option nat;
  mNameInput : String;
  mFilePathInput : String;
  mColourButtons : Z
}.

Definition isEditMode (this : t) : bool := editModeEnabled this.

Definition isCreateMode (this : t) : bool := negb (editModeEnabled this).





Section Behaviour.
Context `{SonoPlaybackProgressButton.Constants} `{SonoPlaybackProgressButton.Colours}.

(** The check made on submitting is in SampleEditView.cpp. *)
Variable valid : t → bool.


(** Modelled from the spec: the constructor, defined in
    SampleEditView.cpp, populates the fields from an optional existing
    sample; with a sample the dialog edits, without one it creates and
    starts from empty texts and the first of the button colours. *)
Definition new (soundSample lastOpenedDirectoryString : option nat) (m : Memory) : t :=
  let existing := s ← soundSample; soundSamples m !! s in
  let n := from_option SoundSample.getName "" existing in
  let f := from_option SoundSample.getFilePath "" existing in
  {| editModeEnabled := bool_decide (is_Some soundSample);
     deleteSample := false;
     initialName := n;
     initialFilePath := f;
     lastOpenedDirectory := lastOpenedDirectoryString;
     mNameInput := n;
     mFilePathInput := f;
     mColourButtons :=
       from_option SoundSample.getButtonColour
         SonoPlaybackProgressButton.DEFAULT_BUTTON_COLOUR existing |}.

















End Behaviour.

End SampleEditView.


(** ** The nodes the serialisers build *)

Section Nodes.
Context `{SoundSample.Keys} `{Soundboard.Keys}.

(** The properties [SoundSample::serialize] sets, in its order. *)
Definition sample_properties (s : SoundSample.t) : list (Identifier * var) :=
  NamedValueSet_set
    (NamedValueSet_set
       (NamedValueSet_set
          (NamedValueSet_set [] SoundSample.NAME_KEY (VString (SoundSample.name s)))
          SoundSample.FILE_PATH_KEY (VString (SoundSample.filePath s)))
       SoundSample.LOOP_KEY (VBool (SoundSample.loop s)))
    SoundSample.BUTTON_COLOUR_KEY (VInt (SoundSample.buttonColour s)).

Definition sample_node (s : SoundSample.t) (p : option nat) : SharedObject :=
  mkSharedObject SoundSample.SAMPLE_KEY (sample_properties s) [] p.

(** The store while [Soundboard::serialize] runs on [b] from the store [σ],
    once the samples [done] have been added: the soundboard node at
    [length σ], the samples node next to it, then one node per sample. *)
Definition board_nodes (σ : store) (b : Soundboard.t) (done : list SoundSample.t) : store :=
  let n := length σ in
  mkSharedObject Soundboard.SOUNDBOARD_KEY
    [(Soundboard.NAME_KEY, VString (Soundboard.name b))] [S n] None
  :: mkSharedObject Soundboard.SAMPLES_KEY [] (seq (S (S n)) (length done)) (Some n)
  :: map (λ s, sample_node s (Some (S n))) done.

(** The attribute keys of a sample are pairwise different. *)
Definition keys_distinct : Prop :=
  NoDup [SoundSample.NAME_KEY; SoundSample.FILE_PATH_KEY;
         SoundSample.LOOP_KEY; SoundSample.BUTTON_COLOUR_KEY].
End Nodes.

(** Whether the node has a child of the given type. *)
Definition has_child_tagged (σ : store) (t : ValueTree) (ty : Identifier) : bool :=
  match deref σ t with
  | Some o =>
      existsb (λ c, match σ !! c with
                    | Some co => bool_decide (type co = ty)
                    | None => false
                    end) (children o)
  | None => false
  end.

(** Field-wise equality of two samples, through the getters. *)
Definition same_fields (s' s : SoundSample.t) : Prop :=
  SoundSample.getName s' = SoundSample.getName s
  ∧ SoundSample.getFilePath s' = SoundSample.getFilePath s
  ∧ SoundSample.isLoop s' = SoundSample.isLoop s
  ∧ SoundSample.getButtonColour s' = SoundSample.getButtonColour s.

(** ** A concrete configuration, to run the model

    Text conversions over ASCII, and one choice of the constants the
    missing headers declare. *)

Definition ascii_isWhitespace (c : Ascii.ascii) : bool :=
  let n := Ascii.nat_of_ascii c in
  Nat.eqb n 32 || (Nat.leb 9 n && Nat.leb n 13).

Fixpoint ascii_findEndOfWhitespace (s : string) : string :=
  match s with
  | String.String c rest => if ascii_isWhitespace c then ascii_findEndOfWhitespace rest else s
  | String.EmptyString => s
  end.

Fixpoint ascii_readDigits (v : Z) (s : string) : Z :=
  match s with
  | String.String c rest =>
      let n := Z.of_nat (Ascii.nat_of_ascii c) in
      if (48 <=? n) && (n <=? 57) then ascii_readDigits (v * 10 + (n - 48)) rest else v
  | String.EmptyString => v
  end.

Definition ascii_getIntValue (s : string) : Z :=
  match ascii_findEndOfWhitespace s with
  | String.String c rest =>
      if Nat.eqb (Ascii.nat_of_ascii c) 45 then int_cast (- ascii_readDigits 0 rest)
      else int_cast (ascii_readDigits 0 (String.String c rest))
  | String.EmptyString => 0
  end.

Definition ascii_trim (s : string) : string :=
  let dropEnd s := String.rev (ascii_findEndOfWhitespace (String.rev s)) in
  dropEnd (ascii_findEndOfWhitespace s).

Definition ascii_toLowerCase (c : Ascii.ascii) : Ascii.ascii :=
  let n := Ascii.nat_of_ascii c in
  if Nat.leb 65 n && Nat.leb n 90 then Ascii.ascii_of_nat (n + 32) else c.

Fixpoint ascii_equalsIgnoreCase (s1 s2 : string) : bool :=
  match s1, s2 with
  | String.EmptyString, String.EmptyString => true
  | String.String c1 r1, String.String c2 r2 =>
      bool_decide (ascii_toLowerCase c1 = ascii_toLowerCase c2)
      && ascii_equalsIgnoreCase r1 r2
  | _, _ => false
  end.

Definition ascii_ops : StringOps :=
  {| String_fromInt := pretty;
     String_getIntValue := ascii_getIntValue;
     String_trim := ascii_trim;
     String_equalsIgnoreCase := ascii_equalsIgnoreCase |}.

Definition demo_sample_keys : SoundSample.Keys :=
  {| SoundSample.NAME_KEY := "name";
     SoundSample.FILE_PATH_KEY := "filePath";
     SoundSample.LOOP_KEY := "loop";
     SoundSample.BUTTON_COLOUR_KEY := "buttonColour" |}.

(** A choice of keys in which the loop flag and the colour share a key. *)
Definition clashing_sample_keys : SoundSample.Keys :=
  {| SoundSample.NAME_KEY := "name";
     SoundSample.FILE_PATH_KEY := "filePath";
     SoundSample.LOOP_KEY := "value";
     SoundSample.BUTTON_COLOUR_KEY := "value" |}.

Definition demo_board_keys : Soundboard.Keys := {| Soundboard.NAME_KEY := "name" |}.

Definition demo_constants : SonoPlaybackProgressButton.Constants :=
  {| SonoPlaybackProgressButton.DEFAULT_BUTTON_COLOUR := 0 |}.

Definition demo_colours : SonoPlaybackProgressButton.Colours :=
  {| SonoPlaybackProgressButton.RED := 1;
     SonoPlaybackProgressButton.ORANGE := 2;
     SonoPlaybackProgressButton.YELLOW := 3;
     SonoPlaybackProgressButton.YELLOW_GREEN := 4;
     SonoPlaybackProgressButton.GREEN := 5;
     SonoPlaybackProgressButton.CYAN := 6;
     SonoPlaybackProgressButton.BLUE := 7;
     SonoPlaybackProgressButton.PURPLE := 8;
     SonoPlaybackProgressButton.PINK := 9;
     SonoPlaybackProgressButton.WHITE := 10 |}.

Definition demo_sample : SoundSample.t := SoundSample.new "airhorn" "/sounds/airhorn.wav" true 5.

Definition demo_board : Soundboard.t :=
  {| Soundboard.name := "effects";
     Soundboard.samples :=
       [demo_sample; SoundSample.new "rimshot" "/sounds/rimshot.ogg" false (-1)] |}.

(** A store holding one node of another program and one sample node that
    carries the file path and nothing else. *)
Definition demo_store : list SharedObject :=
  [mkSharedObject "settings" [("volume", VInt 7)] [1%nat] None;
   mkSharedObject "sample" [("filePath", VString "/sounds/clap.wav")] [] (Some 0%nat)].

(** ** Further tree queries and the shape of a store *)

(** [ValueTree::isValid]. *)
Definition ValueTree_isValid (σ : store) (t : ValueTree) : bool :=
  match deref σ t with
  | Some _ => true
  | None => false
  end.

(** [ValueTree::getParent]. *)
Definition ValueTree_getParent (σ : store) (t : ValueTree) : ValueTree :=
  match deref σ t with
  | Some o => parent o
  | None => None
  end.

(** The parent and child pointers of a store agree: every child of a node
    is a node that names it as its parent, every node with a parent is
    among that parent's children, and no node lists a child twice.  This is
    what [addChild] and [removeChild] maintain. *)
Definition store_wf (σ : store) : Prop :=
  ∀ (a : nat) (o : SharedObject), σ !! a = Some o →
    (∀ c : nat, c ∈ children o → ∃ co, σ !! c = Some co ∧ parent co = Some a)
    ∧ (∀ p : nat, parent o = Some p → ∃ po, σ !! p = Some po ∧ a ∈ children po)
    ∧ NoDup (children o).

(** The same, as a check that runs on a given store. *)
Definition node_wf_check (σ : store) (a : nat) (o : SharedObject) : bool :=
  forallb (λ c, match σ !! c with
                | Some co => bool_decide (parent co = Some a)
                | None => false
                end) (children o)
  && match parent o with
     | Some p => match σ !! p with
                 | Some po => bool_decide (a ∈ children po)
                 | None => false
                 end
     | None => true
     end
  && bool_decide (NoDup (children o)).

Definition store_wf_check (σ : store) : bool :=
  forallb (λ a, match σ !! a with
                | Some o => node_wf_check σ a o
                | None => true
                end) (seq 0 (length σ)).

Section AttributeKeys.
Context `{SoundSample.Keys}.

(** The keys [SoundSample::deserialize] reads. *)
Definition attribute_keys : list Identifier :=
  [SoundSample.NAME_KEY; SoundSample.FILE_PATH_KEY;
   SoundSample.LOOP_KEY; SoundSample.BUTTON_COLOUR_KEY].
End AttributeKeys.

(** A store whose soundboard node has a child of another tag and two
    children tagged "samples"; the first of these holds one node, tagged
    "jingle", that carries a name and a loop flag and nothing else. *)
Definition two_samples_store : list SharedObject :=
  [mkSharedObject "soundboard" [("name", VString "mixed")] [1%nat; 2%nat; 3%nat] None;
   mkSharedObject "note" [] [] (Some 0%nat);
   mkSharedObject "samples" [] [4%nat] (Some 0%nat);
   mkSharedObject "samples" [] [] (Some 0%nat);
   mkSharedObject "jingle" [("name", VString "intro"); ("loop", VBool true)] [] (Some 2%nat)].

(** ** Named values *)

Lemma getVarPointer_set_eq values name v :
  NamedValueSet_getVarPointer (NamedValueSet_set values name v) name = Some v.
Proof.
  induction values as [|[n w] rest IH]; simpl.
  - by rewrite decide_True.
  - destruct (decide (n = name)) as [->|Hne]; simpl.
    + by rewrite decide_True.
    + by rewrite decide_False.
Qed.

Lemma getVarPointer_set_ne values name name' v :
  name ≠ name' →
  NamedValueSet_getVarPointer (NamedValueSet_set values name v) name'
  = NamedValueSet_getVarPointer values name'.
Proof.
  intros Hne. induction values as [|[n w] rest IH]; simpl.
  - by rewrite decide_False.
  - destruct (decide (n = name)) as [->|Hn]; simpl.
    + by rewrite !decide_False.
    + destruct (decide (n = name')); [done | apply IH].
Qed.

Lemma contains_set_eq values name v :
  NamedValueSet_contains (NamedValueSet_set values name v) name = true.
Proof. unfold NamedValueSet_contains. by rewrite getVarPointer_set_eq. Qed.

Lemma contains_set_mono values name name' v :
  NamedValueSet_contains values name' = true →
  NamedValueSet_contains (NamedValueSet_set values name v) name' = true.
Proof.
  destruct (decide (name = name')) as [->|Hne].
  - intros _. apply contains_set_eq.
  - unfold NamedValueSet_contains. by rewrite getVarPointer_set_ne.
Qed.

(** ** The store *)

Lemma lookup_snoc (σ : store) o : (σ ++ [o]) !! length σ = Some o.
Proof. by rewrite list_lookup_middle. Qed.

Lemma insert_snoc (σ : store) o o' : <[length σ := o']> (σ ++ [o]) = σ ++ [o'].
Proof.
  rewrite insert_app_r_alt by lia. by rewrite Nat.sub_diag.
Qed.

Lemma setProperty_snoc (σ : store) o name v :
  ValueTree_setProperty (Some (length σ)) name v (σ ++ [o])
  = (tt, σ ++ [with_properties o (NamedValueSet_set (properties o) name v)]).
Proof.
  unfold ValueTree_setProperty. by rewrite lookup_snoc, insert_snoc.
Qed.

Lemma parent_chain_has_None σ steps target :
  parent_chain_has σ steps None target = false.
Proof. by destruct steps. Qed.

Lemma parent_chain_has_root σ steps a o target :
  a ≠ target → σ !! a = Some o → parent o = None →
  parent_chain_has σ steps (Some a) target = false.
Proof.
  intros Hne Ha Hp. destruct steps as [|steps]; [done|]. simpl.
  rewrite decide_False by done. rewrite Ha, Hp. apply parent_chain_has_None.
Qed.

(** Adding a node that has no parent yet, where no cycle arises. *)
Lemma addChild_orphan (σ : store) this child index o c :
  σ !! this = Some o → σ !! child = Some c → parent c = None →
  child ≠ this → SharedObject_isAChildOf σ this child = false →
  ValueTree_addChild (Some this) (Some child) index σ
  = (tt, <[child := with_parent c (Some this)]>
           (<[this := with_children o (Array_insert index child (children o))]> σ)).
Proof.
  intros Ht Hc Hp Hne Hcyc. unfold ValueTree_addChild, SharedObject_addChild.
  rewrite Ht, Hc, Hp. rewrite decide_False by done.
  rewrite bool_decide_eq_false_2 by done. rewrite Hcyc. simpl. rewrite Ht.
  rewrite list_lookup_insert_ne by done. by rewrite Hc.
Qed.

Lemma Array_insert_at_length (l : list nat) x (k : nat) :
  k = length l → Array_insert (Z.of_nat k) x l = l ++ [x].
Proof.
  intros ->. unfold Array_insert.
  replace (Z.of_nat (length l) <? Z.of_nat (length l)) with false
    by (symmetry; apply Z.ltb_ge; lia).
  by rewrite andb_false_r.
Qed.


(** ** SoundSample::serialize in closed form *)

Section SampleFacts.
Context `{StringOps} `{SoundSample.Keys} `{SonoPlaybackProgressButton.Constants}.

Lemma SoundSample_serialize_eq (s : SoundSample.t) (σ : store) :
  SoundSample.serialize (mkObj s σ)
  = (Some (length σ), mkObj s (σ ++ [sample_node s None])).
Proof.
  unfold SoundSample.serialize, mbind, M_bind, mret, M_ret, liftH, gets,
    ValueTree_new.
  cbn [this heap].
  repeat (rewrite setProperty_snoc; cbn [this heap]).
  reflexivity.
Qed.

Lemma keys_distinct_ne :
  keys_distinct →
  SoundSample.NAME_KEY ≠ SoundSample.FILE_PATH_KEY
  ∧ SoundSample.NAME_KEY ≠ SoundSample.LOOP_KEY
  ∧ SoundSample.NAME_KEY ≠ SoundSample.BUTTON_COLOUR_KEY
  ∧ SoundSample.FILE_PATH_KEY ≠ SoundSample.LOOP_KEY
  ∧ SoundSample.FILE_PATH_KEY ≠ SoundSample.BUTTON_COLOUR_KEY
  ∧ SoundSample.LOOP_KEY ≠ SoundSample.BUTTON_COLOUR_KEY.
Proof.
  unfold keys_distinct. rewrite !NoDup_cons, !not_elem_of_cons.
  intros ((? & ? & ? & _) & (? & ? & _) & (? & _) & _). repeat split; assumption.
Qed.

(** What the four keys read back from the properties of a serialised
    sample. *)
Lemma sample_properties_lookup (s : SoundSample.t) :
  keys_distinct →
  NamedValueSet_getVarPointer (sample_properties s) SoundSample.NAME_KEY
    = Some (VString (SoundSample.name s))
  ∧ NamedValueSet_getVarPointer (sample_properties s) SoundSample.FILE_PATH_KEY
    = Some (VString (SoundSample.filePath s))
  ∧ NamedValueSet_getVarPointer (sample_properties s) SoundSample.LOOP_KEY
    = Some (VBool (SoundSample.loop s))
  ∧ NamedValueSet_getVarPointer (sample_properties s) SoundSample.BUTTON_COLOUR_KEY
    = Some (VInt (SoundSample.buttonColour s)).
Proof.
  intros (Hnf & Hnl & Hnc & Hfl & Hfc & Hlc)%keys_distinct_ne.
  unfold sample_properties. repeat split.
  - rewrite !(getVarPointer_set_ne _ _ SoundSample.NAME_KEY) by done.
    apply getVarPointer_set_eq.
  - rewrite !(getVarPointer_set_ne _ _ SoundSample.FILE_PATH_KEY) by done.
    apply getVarPointer_set_eq.
  - rewrite !(getVarPointer_set_ne _ _ SoundSample.LOOP_KEY) by done.
    apply getVarPointer_set_eq.
  - apply getVarPointer_set_eq.
Qed.

(** Deserialising any node that carries the properties of [s] gives [s]. *)
Lemma SoundSample_deserialize_node (σ : store) (a : nat) (o : SharedObject) s :
  keys_distinct → σ !! a = Some o → properties o = sample_properties s →
  SoundSample.deserialize σ (Some a) = s.
Proof.
  intros Hd Ha Hp. destruct (sample_properties_lookup s Hd) as (Hn & Hf & Hl & Hc).
  unfold SoundSample.deserialize, ValueTree_getProperty,
    ValueTree_getProperty_default, NamedValueSet_get,
    NamedValueSet_getWithDefault. simpl.
  rewrite Ha, Hp, Hn, Hf, Hl, Hc. by destruct s.
Qed.

End SampleFacts.


(** ** Soundboard::serialize in closed form *)

Section BoardFacts.
Context `{StringOps} `{SoundSample.Keys} `{Soundboard.Keys}
        `{SonoPlaybackProgressButton.Constants}.

Lemma board_nodes_length (σ : store) b done :
  length (σ ++ board_nodes σ b done) = S (S (length σ + length done)).
Proof.
  rewrite length_app. unfold board_nodes. simpl. rewrite length_map. lia.
Qed.

Lemma board_nodes_lookup_board (σ : store) b done :
  (σ ++ board_nodes σ b done) !! length σ
  = Some (mkSharedObject Soundboard.SOUNDBOARD_KEY
            [(Soundboard.NAME_KEY, VString (Soundboard.name b))] [S (length σ)] None).
Proof. unfold board_nodes. by rewrite list_lookup_middle. Qed.

Lemma board_nodes_lookup_samples (σ : store) b done :
  (σ ++ board_nodes σ b done) !! S (length σ)
  = Some (mkSharedObject Soundboard.SAMPLES_KEY []
            (seq (S (S (length σ))) (length done)) (Some (length σ))).
Proof.
  rewrite lookup_app_r by lia.
  by replace (S (length σ) - length σ)%nat with 1%nat by lia.
Qed.

Lemma board_nodes_lookup_sample (σ : store) b done i s :
  done !! i = Some s →
  (σ ++ board_nodes σ b done) !! (S (S (length σ)) + i)%nat
  = Some (sample_node s (Some (S (length σ)))).
Proof.
  intros Hi. rewrite lookup_app_r by lia.
  replace (S (S (length σ)) + i - length σ)%nat with (S (S i)) by lia.
  unfold board_nodes. simpl. by rewrite list_lookup_fmap, Hi.
Qed.

(** One turn of the loop: the node of [s] is appended to the store and
    becomes the last child of the samples node. *)
Lemma board_nodes_snoc (σ : store) b done s :
  let h := σ ++ board_nodes σ b done in
  let samplesNode := mkSharedObject Soundboard.SAMPLES_KEY []
                       (seq (S (S (length σ))) (length done)) (Some (length σ)) in
  <[length h := with_parent (sample_node s None) (Some (S (length σ)))]>
    (<[S (length σ) := with_children samplesNode
                         (Array_insert (Z.of_nat (length done)) (length h)
                            (children samplesNode))]>
       (h ++ [sample_node s None]))
  = σ ++ board_nodes σ b (done ++ [s]).
Proof.
  intros h samplesNode.
  assert (Hlen : length h = S (S (length σ + length done)))
    by apply board_nodes_length.
  assert (Hins : Array_insert (Z.of_nat (length done)) (length h) (children samplesNode)
                 = seq (S (S (length σ))) (length (done ++ [s]))).
  { subst samplesNode. cbn [children].
    rewrite (Array_insert_at_length _ _ (length done)) by (by rewrite length_seq).
    rewrite Hlen, length_app. cbn [length]. rewrite Nat.add_1_r, seq_S.
    by rewrite Nat.add_succ_l, Nat.add_succ_l. }
  rewrite Hins. rewrite insert_app_l by lia.
  rewrite <- (length_insert h (S (length σ))
                (with_children samplesNode
                   (seq (S (S (length σ))) (length (done ++ [s]))))).
  rewrite insert_snoc. subst h. rewrite insert_app_r_alt by lia.
  replace (S (length σ) - length σ)%nat with 1%nat by lia.
  rewrite <- app_assoc. f_equal. unfold board_nodes. cbn [insert list_insert app].
  by rewrite map_app.
Qed.

Lemma serialize_samples_eq (σ : store) b rest : ∀ done,
  Soundboard.samples b = done ++ rest →
  Soundboard.serialize_samples (length rest) (length done) (Some (S (length σ)))
    (Z.of_nat (length done)) (mkObj b (σ ++ board_nodes σ b done))
  = (tt, mkObj b (σ ++ board_nodes σ b (done ++ rest))).
Proof.
  induction rest as [|s rest IH]; intros done Hb.
  - by rewrite app_nil_r.
  - cbn [length Soundboard.serialize_samples].
    unfold mbind, M_bind, gets at 1. cbn [this heap].
    assert (Hk : Soundboard.samples b !! length done = Some s)
      by (rewrite Hb; by apply list_lookup_middle).
    rewrite Hk.
    unfold Soundboard.on_sample, liftH. cbn [this heap].
    rewrite SoundSample_serialize_eq. cbn [this heap].
    rewrite (list_insert_id _ _ _ Hk).
    assert (Hlen : length (σ ++ board_nodes σ b done) = S (S (length σ + length done)))
      by apply board_nodes_length.
    rewrite (addChild_orphan _ (S (length σ)) _ _
               (mkSharedObject Soundboard.SAMPLES_KEY []
                  (seq (S (S (length σ))) (length done)) (Some (length σ)))
               (sample_node s None)).
    + pose proof (board_nodes_snoc σ b done s) as Hs. cbv zeta in Hs. rewrite Hs.
      specialize (IH (done ++ [s])).
      rewrite length_app, Nat.add_1_r, Nat2Z.inj_succ, <- Z.add_1_r in IH.
      rewrite <- app_assoc in IH. destruct b as [bn bs]. by apply IH.
    + rewrite lookup_app_l by lia. apply board_nodes_lookup_samples.
    + apply lookup_snoc.
    + done.
    + lia.
    + unfold SharedObject_isAChildOf.
      rewrite lookup_app_l by lia. rewrite board_nodes_lookup_samples.
      cbn [parent]. eapply parent_chain_has_root.
      * rewrite Hlen. lia.
      * rewrite lookup_app_l by lia. apply board_nodes_lookup_board.
      * done.
Qed.

Lemma Soundboard_serialize_eq (b : Soundboard.t) (σ : store) :
  Soundboard.serialize (mkObj b σ)
  = (Some (length σ), mkObj b (σ ++ board_nodes σ b (Soundboard.samples b))).
Proof.
  unfold Soundboard.serialize, mbind, M_bind, mret, M_ret, liftH, gets,
    ValueTree_new.
  cbn [this heap]. rewrite setProperty_snoc. cbn [this heap with_properties type properties children parent NamedValueSet_set].
  rewrite length_app. cbn [length]. rewrite Nat.add_1_r.
  rewrite (addChild_orphan _ (length σ) (S (length σ)) 0
             (mkSharedObject Soundboard.SOUNDBOARD_KEY
                [(Soundboard.NAME_KEY, VString (Soundboard.name b))] [] None)
             (mkSharedObject Soundboard.SAMPLES_KEY [] [] None)).
  - cbn [this heap].
    pose proof (serialize_samples_eq σ b (Soundboard.samples b) [] eq_refl) as Hl.
    cbn [length app] in Hl. change (Z.of_nat 0) with 0 in Hl.
    replace (<[S (length σ) := _]> _) with (σ ++ board_nodes σ b []).
    + by rewrite Hl.
    + rewrite <- app_assoc. cbn [app].
      rewrite !(insert_app_r_alt σ) by lia.
      replace (S (length σ) - length σ)%nat with 1%nat by lia.
      by rewrite Nat.sub_diag.
  - rewrite <- app_assoc. by apply list_lookup_middle.
  - rewrite <- app_assoc. rewrite lookup_app_r by lia.
    by replace (S (length σ) - length σ)%nat with 1%nat by lia.
  - done.
  - lia.
  - unfold SharedObject_isAChildOf. rewrite <- app_assoc. cbn [app].
    rewrite list_lookup_middle by done. apply parent_chain_has_None.
Qed.

End BoardFacts.


(** ** Deserialising what was serialised *)

Section Deserialisation.
Context `{StringOps} `{SoundSample.Keys} `{Soundboard.Keys}
        `{SonoPlaybackProgressButton.Constants}.

(** The loop of [Soundboard::deserialize] appends one sample per index. *)
Lemma fold_emplace_back (f : nat → SoundSample.t) (l : list nat) (sb : Soundboard.t) :
  fold_left (λ soundboard i, Soundboard.emplace_back soundboard (f i)) l sb
  = {| Soundboard.name := Soundboard.name sb;
       Soundboard.samples := Soundboard.samples sb ++ map f l |}.
Proof.
  revert sb. induction l as [|i l IH]; intros sb; simpl.
  - rewrite app_nil_r. by destruct sb.
  - rewrite IH. unfold Soundboard.emplace_back. simpl. by rewrite <- app_assoc.
Qed.

Lemma Soundboard_deserialize_eq (σ : store) (tree : ValueTree) :
  Soundboard.deserialize σ tree
  = {| Soundboard.name := var_toString (ValueTree_getProperty σ tree Soundboard.NAME_KEY);
       Soundboard.samples :=
         map (λ i, SoundSample.deserialize σ
                     (ValueTree_getChild σ
                        (ValueTree_getChildWithName σ tree Soundboard.SAMPLES_KEY)
                        (Z.of_nat i)))
             (seq 0 (ValueTree_getNumChildren σ
                       (ValueTree_getChildWithName σ tree Soundboard.SAMPLES_KEY))) |}.
Proof. unfold Soundboard.deserialize. by rewrite fold_emplace_back. Qed.

Lemma map_seq_lookup {A} (f : nat → A) (l : list A) :
  (∀ i x, l !! i = Some x → f i = x) → map f (seq 0 (length l)) = l.
Proof.
  intros Hf. apply list_eq. intros i. rewrite list_lookup_fmap.
  destruct (l !! i) as [x|] eqn:Hi.
  - rewrite lookup_seq_lt by (by eapply lookup_lt_Some). simpl.
    by rewrite (Hf i x Hi).
  - apply lookup_ge_None in Hi. rewrite lookup_ge_None_2; [done|].
    by rewrite length_seq.
Qed.

(** The handles of the serialised soundboard, read from the final store. *)
Lemma board_nodes_samplesTree (σ : store) b :
  ValueTree_getChildWithName (σ ++ board_nodes σ b (Soundboard.samples b))
    (Some (length σ)) Soundboard.SAMPLES_KEY
  = Some (S (length σ)).
Proof.
  unfold ValueTree_getChildWithName, deref. cbn [mbind option_bind].
  rewrite board_nodes_lookup_board. cbn [children first_with_type].
  rewrite board_nodes_lookup_samples. cbn [type]. by rewrite decide_True.
Qed.

Lemma board_nodes_child (σ : store) b i s :
  Soundboard.samples b !! i = Some s →
  ValueTree_getChild (σ ++ board_nodes σ b (Soundboard.samples b))
    (Some (S (length σ))) (Z.of_nat i)
  = Some (S (S (length σ)) + i)%nat.
Proof.
  intros Hi. unfold ValueTree_getChild, deref. simpl.
  rewrite board_nodes_lookup_samples. simpl.
  replace (0 <=? Z.of_nat i) with true by (symmetry; apply Z.leb_le; lia).
  rewrite Nat2Z.id. apply lookup_seq_lt. by eapply lookup_lt_Some.
Qed.

Lemma Soundboard_deserialize_serialize (σ : store) b :
  keys_distinct →
  Soundboard.deserialize (σ ++ board_nodes σ b (Soundboard.samples b)) (Some (length σ)) = b.
Proof.
  intros Hd. rewrite Soundboard_deserialize_eq. rewrite board_nodes_samplesTree.
  assert (Hn : var_toString
                 (ValueTree_getProperty (σ ++ board_nodes σ b (Soundboard.samples b))
                    (Some (length σ)) Soundboard.NAME_KEY) = Soundboard.name b).
  { unfold ValueTree_getProperty, deref. cbn [mbind option_bind].
    rewrite board_nodes_lookup_board.
    unfold NamedValueSet_get. cbn [properties NamedValueSet_getVarPointer].
    by rewrite decide_True. }
  assert (Hc : ValueTree_getNumChildren (σ ++ board_nodes σ b (Soundboard.samples b))
                 (Some (S (length σ))) = length (Soundboard.samples b)).
  { unfold ValueTree_getNumChildren, deref. cbn [mbind option_bind].
    rewrite board_nodes_lookup_samples. cbn [children]. apply length_seq. }
  rewrite Hn, Hc. rewrite map_seq_lookup; [by destruct b|].
  intros i s Hi. rewrite (board_nodes_child σ b i s Hi).
  eapply SoundSample_deserialize_node.
  - done.
  - by apply board_nodes_lookup_sample.
  - done.
Qed.

End Deserialisation.


(** ** Properties of the data model and of its serialisation *)

Section Properties.
Context `{StringOps} `{SoundSample.Keys} `{Soundboard.Keys}
        `{SonoPlaybackProgressButton.Constants}.

(** C1. Serialising a sample into any store and deserialising the tree
    that comes back gives a sample with the same name, file path, loop
    flag and button colour, provided the four attribute keys of
    Soundboard.h are pairwise different. *)
Theorem SoundSample_roundtrip (s : SoundSample.t) (σ : store) :
  keys_distinct →
  let '(tree, st) := SoundSample.serialize (mkObj s σ) in
  same_fields (SoundSample.deserialize (heap st) tree) s.
Proof.
  intros Hd. rewrite SoundSample_serialize_eq. cbn [heap].
  rewrite (SoundSample_deserialize_node _ _ (sample_node s None) s Hd).
  - by repeat split.
  - apply lookup_snoc.
  - done.
Qed.

(** C2. Serialising a soundboard into any store and deserialising the
    tree that comes back gives a soundboard with the same name and with
    the same samples, as many and in the same order, each equal field by
    field to its original (attribute keys pairwise different). *)
Theorem Soundboard_roundtrip (b : Soundboard.t) (σ : store) :
  keys_distinct →
  let '(tree, st) := Soundboard.serialize (mkObj b σ) in
  let b' := Soundboard.deserialize (heap st) tree in
  Soundboard.getName b' = Soundboard.getName b
  ∧ length (Soundboard.getSamples b') = length (Soundboard.getSamples b)
  ∧ Forall2 same_fields (Soundboard.getSamples b') (Soundboard.getSamples b).
Proof.
  intros Hd. rewrite Soundboard_serialize_eq. cbn [heap].
  rewrite (Soundboard_deserialize_serialize σ b Hd).
  repeat split. apply Forall2_same_length_lookup. split; [done|].
  intros i x y Hx Hy. assert (x = y) as -> by congruence. by repeat split.
Qed.

(** C3. A sample node without the loop key deserialises to a sample that
    does not loop; a sample node without the button colour key
    deserialises to a sample of the default button colour. *)
Theorem SoundSample_deserialize_defaults (σ : store) (tree : ValueTree) :
  (ValueTree_hasProperty σ tree SoundSample.LOOP_KEY = false →
   SoundSample.isLoop (SoundSample.deserialize σ tree) = false)
  ∧ (ValueTree_hasProperty σ tree SoundSample.BUTTON_COLOUR_KEY = false →
     SoundSample.getButtonColour (SoundSample.deserialize σ tree)
     = SonoPlaybackProgressButton.DEFAULT_BUTTON_COLOUR).
Proof.
  unfold ValueTree_hasProperty, SoundSample.deserialize, SoundSample.isLoop,
    SoundSample.getButtonColour, ValueTree_getProperty_default,
    NamedValueSet_contains, NamedValueSet_getWithDefault.
  cbn [SoundSample.new SoundSample.loop SoundSample.buttonColour].
  destruct (deref σ tree) as [o|]; [|done].
  split; intros Habsent.
  - by destruct (NamedValueSet_getVarPointer (properties o) SoundSample.LOOP_KEY).
  - by destruct (NamedValueSet_getVarPointer (properties o) SoundSample.BUTTON_COLOUR_KEY).
Qed.

(** C8. A sample node without the name key deserialises to a sample with
    the empty name, and one without the file path key to a sample with
    the empty file path: the void var converts to the empty string. *)
Theorem SoundSample_deserialize_missing_text (σ : store) (tree : ValueTree) :
  (ValueTree_hasProperty σ tree SoundSample.NAME_KEY = false →
   SoundSample.getName (SoundSample.deserialize σ tree) = "")
  ∧ (ValueTree_hasProperty σ tree SoundSample.FILE_PATH_KEY = false →
     SoundSample.getFilePath (SoundSample.deserialize σ tree) = "").
Proof.
  unfold ValueTree_hasProperty, SoundSample.deserialize, SoundSample.getName,
    SoundSample.getFilePath, ValueTree_getProperty,
    NamedValueSet_contains, NamedValueSet_get.
  cbn [SoundSample.new SoundSample.name SoundSample.filePath].
  destruct (deref σ tree) as [o|]; [|done].
  split; intros Habsent.
  - by destruct (NamedValueSet_getVarPointer (properties o) SoundSample.NAME_KEY).
  - by destruct (NamedValueSet_getVarPointer (properties o) SoundSample.FILE_PATH_KEY).
Qed.

Lemma first_with_type_None (σ : store) (cs : list nat) ty :
  existsb (λ c, match σ !! c with
                | Some co => bool_decide (type co = ty)
                | None => false
                end) cs = false →
  first_with_type σ cs ty = None.
Proof.
  induction cs as [|c cs IH]; [done|]. simpl.
  intros [Hc Hcs]%orb_false_elim. destruct (σ !! c) as [co|]; [|by apply IH].
  apply bool_decide_eq_false in Hc. rewrite decide_False by done. by apply IH.
Qed.

(** C9. From a node that has no child tagged "samples",
    [Soundboard::deserialize] returns a soundboard without samples, whose
    name is the node's name attribute as text, the empty string when the
    attribute is absent. *)
Theorem Soundboard_deserialize_without_samples (σ : store) (tree : ValueTree) :
  has_child_tagged σ tree Soundboard.SAMPLES_KEY = false →
  let b := Soundboard.deserialize σ tree in
  Soundboard.getSamples b = []
  ∧ Soundboard.getName b
    = var_toString (ValueTree_getProperty σ tree Soundboard.NAME_KEY)
  ∧ (ValueTree_hasProperty σ tree Soundboard.NAME_KEY = false →
     Soundboard.getName b = "").
Proof.
  intros Hno. cbv zeta. rewrite Soundboard_deserialize_eq.
  assert (Hc : ValueTree_getChildWithName σ tree Soundboard.SAMPLES_KEY = None).
  { unfold ValueTree_getChildWithName, has_child_tagged in *.
    destruct (deref σ tree) as [o|]; [|done]. by apply first_with_type_None. }
  rewrite Hc. cbn [Soundboard.getSamples Soundboard.getName Soundboard.samples
                   Soundboard.name]. repeat split.
  unfold ValueTree_hasProperty, ValueTree_getProperty, NamedValueSet_contains,
    NamedValueSet_get.
  destruct (deref σ tree) as [o|]; [|done].
  by destruct (NamedValueSet_getVarPointer (properties o) Soundboard.NAME_KEY).
Qed.

End Properties.

Section Layout.
Context `{StringOps} `{SoundSample.Keys} `{Soundboard.Keys}
        `{SonoPlaybackProgressButton.Constants}.

Lemma sample_properties_contains (s : SoundSample.t) :
  NamedValueSet_contains (sample_properties s) SoundSample.NAME_KEY = true
  ∧ NamedValueSet_contains (sample_properties s) SoundSample.FILE_PATH_KEY = true
  ∧ NamedValueSet_contains (sample_properties s) SoundSample.LOOP_KEY = true
  ∧ NamedValueSet_contains (sample_properties s) SoundSample.BUTTON_COLOUR_KEY = true.
Proof.
  unfold sample_properties. repeat split;
    repeat (apply contains_set_eq || apply contains_set_mono).
Qed.

(** C4. The tree [Soundboard::serialize] returns is a node tagged
    "soundboard" that carries the name attribute and has exactly one
    child; the child is tagged "samples" and has one child per sample, in
    the order of the samples; each of these is tagged "sample" and carries
    the four attributes, which hold the sample's name, file path, loop
    flag and colour when the keys are pairwise different. *)
Theorem Soundboard_serialize_layout (b : Soundboard.t) (σ : store) :
  let '(tree, st) := Soundboard.serialize (mkObj b σ) in
  let h := heap st in
  let samplesTree := ValueTree_getChild h tree 0 in
  ValueTree_getType h tree = "soundboard"
  ∧ ValueTree_hasProperty h tree Soundboard.NAME_KEY = true
  ∧ ValueTree_getProperty h tree Soundboard.NAME_KEY = VString (Soundboard.name b)
  ∧ ValueTree_getNumChildren h tree = 1%nat
  ∧ ValueTree_getType h samplesTree = "samples"
  ∧ ValueTree_getNumChildren h samplesTree = length (Soundboard.samples b)
  ∧ ∀ (i : nat) (s : SoundSample.t),
      Soundboard.samples b !! i = Some s →
      let child := ValueTree_getChild h samplesTree (Z.of_nat i) in
      ValueTree_getType h child = "sample"
      ∧ ValueTree_hasProperty h child SoundSample.NAME_KEY = true
      ∧ ValueTree_hasProperty h child SoundSample.FILE_PATH_KEY = true
      ∧ ValueTree_hasProperty h child SoundSample.LOOP_KEY = true
      ∧ ValueTree_hasProperty h child SoundSample.BUTTON_COLOUR_KEY = true
      ∧ (keys_distinct →
         ValueTree_getProperty h child SoundSample.NAME_KEY
           = VString (SoundSample.name s)
         ∧ ValueTree_getProperty h child SoundSample.FILE_PATH_KEY
           = VString (SoundSample.filePath s)
         ∧ ValueTree_getProperty h child SoundSample.LOOP_KEY
           = VBool (SoundSample.loop s)
         ∧ ValueTree_getProperty h child SoundSample.BUTTON_COLOUR_KEY
           = VInt (SoundSample.buttonColour s)).
Proof.
  rewrite Soundboard_serialize_eq. cbn [heap]. cbv zeta.
  set (h := σ ++ board_nodes σ b (Soundboard.samples b)).
  assert (Hb : h !! length σ = Some (mkSharedObject Soundboard.SOUNDBOARD_KEY
            [(Soundboard.NAME_KEY, VString (Soundboard.name b))] [S (length σ)] None))
    by apply board_nodes_lookup_board.
  assert (Hs : h !! S (length σ) = Some (mkSharedObject Soundboard.SAMPLES_KEY []
            (seq (S (S (length σ))) (length (Soundboard.samples b))) (Some (length σ))))
    by apply board_nodes_lookup_samples.
  assert (Hc0 : ValueTree_getChild h (Some (length σ)) 0 = Some (S (length σ))).
  { unfold ValueTree_getChild, deref. cbn [mbind option_bind]. by rewrite Hb. }
  rewrite Hc0.
  unfold ValueTree_getType, ValueTree_hasProperty, ValueTree_getProperty,
    ValueTree_getNumChildren, deref. cbn [mbind option_bind]. rewrite Hb, Hs.
  cbn [type properties children].
  unfold NamedValueSet_contains, NamedValueSet_get.
  cbn [NamedValueSet_getVarPointer]. rewrite decide_True by done.
  rewrite length_seq. repeat (split; [done|]).
  intros i s Hi.
  pose proof (board_nodes_child σ b i s Hi) as Hchild. fold h in Hchild.
  rewrite Hchild. cbn [mbind option_bind].
  pose proof (board_nodes_lookup_sample σ b _ i s Hi) as Hnode. fold h in Hnode.
  rewrite Hnode. cbn [sample_node type properties].
  destruct (sample_properties_contains s) as (Cn & Cf & Cl & Cc).
  unfold NamedValueSet_contains in Cn, Cf, Cl, Cc.
  repeat (split; [done|]).
  intros Hd. destruct (sample_properties_lookup s Hd) as (Hn & Hf & Hl & Hc).
  by rewrite Hn, Hf, Hl, Hc.
Qed.

End Layout.

(** ** Frame properties of the member functions *)

(** C6. Each setter of [SoundSample] makes its getter return the value
    set and leaves what the other three getters return as it was;
    [Soundboard::setName] sets the name and leaves the samples. *)
Theorem setters_frame (s : SoundSample.t) (b : Soundboard.t)
    (newName newFilePath : String) (newLoop : bool) (newRgb : Z) :
  (SoundSample.getName (SoundSample.setName newName s) = newName
   ∧ SoundSample.getFilePath (SoundSample.setName newName s) = SoundSample.getFilePath s
   ∧ SoundSample.isLoop (SoundSample.setName newName s) = SoundSample.isLoop s
   ∧ SoundSample.getButtonColour (SoundSample.setName newName s)
     = SoundSample.getButtonColour s)
  ∧ (SoundSample.getFilePath (SoundSample.setFilePath newFilePath s) = newFilePath
     ∧ SoundSample.getName (SoundSample.setFilePath newFilePath s) = SoundSample.getName s
     ∧ SoundSample.isLoop (SoundSample.setFilePath newFilePath s) = SoundSample.isLoop s
     ∧ SoundSample.getButtonColour (SoundSample.setFilePath newFilePath s)
       = SoundSample.getButtonColour s)
  ∧ (SoundSample.isLoop (SoundSample.setLoop newLoop s) = newLoop
     ∧ SoundSample.getName (SoundSample.setLoop newLoop s) = SoundSample.getName s
     ∧ SoundSample.getFilePath (SoundSample.setLoop newLoop s) = SoundSample.getFilePath s
     ∧ SoundSample.getButtonColour (SoundSample.setLoop newLoop s)
       = SoundSample.getButtonColour s)
  ∧ (SoundSample.getButtonColour (SoundSample.setButtonColour newRgb s) = newRgb
     ∧ SoundSample.getName (SoundSample.setButtonColour newRgb s) = SoundSample.getName s
     ∧ SoundSample.getFilePath (SoundSample.setButtonColour newRgb s)
       = SoundSample.getFilePath s
     ∧ SoundSample.isLoop (SoundSample.setButtonColour newRgb s) = SoundSample.isLoop s)
  ∧ (Soundboard.getName (Soundboard.setName newName b) = newName
     ∧ Soundboard.getSamples (Soundboard.setName newName b) = Soundboard.getSamples b).
Proof. by repeat split. Qed.

(** C7. [serialize] leaves its receiver as it found it: the sample keeps
    its name, file path, loop flag and button colour, the soundboard its
    name and its samples. *)
Theorem serialize_leaves_receiver `{SoundSample.Keys} `{Soundboard.Keys}
    (s : SoundSample.t) (b : Soundboard.t) (σ : store) :
  this (SoundSample.serialize (mkObj s σ)).2 = s
  ∧ this (Soundboard.serialize (mkObj b σ)).2 = b.
Proof.
  by rewrite SoundSample_serialize_eq, Soundboard_serialize_eq.
Qed.

(** ** The dialog *)

(** C10. The dialog is in exactly one of its two modes: [isEditMode] and
    [isCreateMode] never agree, whatever the state of the dialog. *)
Theorem edit_mode_xor_create_mode (view : SampleEditView.t) :
  SampleEditView.isEditMode view = negb (SampleEditView.isCreateMode view)
  ∧ xorb (SampleEditView.isEditMode view) (SampleEditView.isCreateMode view) = true.
Proof.
  unfold SampleEditView.isEditMode, SampleEditView.isCreateMode.
  by destruct (SampleEditView.editModeEnabled view).
Qed.

Section DialogFrame.
Context `{SonoPlaybackProgressButton.Constants} `{SonoPlaybackProgressButton.Colours}.
Variable valid : SampleEditView.t → bool.









End DialogFrame.

(** ** The theorems at work on the concrete configuration *)

Section Witnesses.
#[local] Existing Instance ascii_ops.
#[local] Existing Instance demo_sample_keys.
#[local] Existing Instance demo_board_keys.
#[local] Existing Instance demo_constants.

Lemma demo_keys_distinct : keys_distinct.
Proof. apply (bool_decide_unpack _). vm_compute. reflexivity. Defined.

Lemma SoundSample_roundtrip_witness :
  keys_distinct
  ∧ let '(tree, st) := SoundSample.serialize (mkObj demo_sample demo_store) in
    same_fields (SoundSample.deserialize (heap st) tree) demo_sample.
Proof.
  split; [exact demo_keys_distinct|].
  pose proof (SoundSample_roundtrip demo_sample demo_store demo_keys_distinct) as Hrt.
  exact Hrt.
Defined.

Lemma Soundboard_roundtrip_witness :
  keys_distinct
  ∧ let '(tree, st) := Soundboard.serialize (mkObj demo_board demo_store) in
    let b' := Soundboard.deserialize (heap st) tree in
    Soundboard.getName b' = Soundboard.getName demo_board
    ∧ length (Soundboard.getSamples b') = length (Soundboard.getSamples demo_board)
    ∧ Forall2 same_fields (Soundboard.getSamples b') (Soundboard.getSamples demo_board).
Proof.
  split; [exact demo_keys_distinct|].
  pose proof (Soundboard_roundtrip demo_board demo_store demo_keys_distinct) as Hrt.
  exact Hrt.
Defined.

Lemma SoundSample_deserialize_defaults_witness :
  (ValueTree_hasProperty demo_store (Some 1%nat) SoundSample.LOOP_KEY = false
   ∧ SoundSample.isLoop (SoundSample.deserialize demo_store (Some 1%nat)) = false)
  ∧ (ValueTree_hasProperty demo_store (Some 1%nat) SoundSample.BUTTON_COLOUR_KEY = false
     ∧ SoundSample.getButtonColour (SoundSample.deserialize demo_store (Some 1%nat)) = 0).
Proof.
  destruct (SoundSample_deserialize_defaults demo_store (Some 1%nat)) as [Hl Hc].
  split; (split; [reflexivity|]).
  - apply Hl. reflexivity.
  - apply Hc. reflexivity.
Defined.

Lemma SoundSample_deserialize_missing_text_witness :
  (ValueTree_hasProperty demo_store (Some 0%nat) SoundSample.NAME_KEY = false
   ∧ SoundSample.getName (SoundSample.deserialize demo_store (Some 0%nat)) = "")
  ∧ (ValueTree_hasProperty demo_store (Some 0%nat) SoundSample.FILE_PATH_KEY = false
     ∧ SoundSample.getFilePath (SoundSample.deserialize demo_store (Some 0%nat)) = "").
Proof.
  destruct (SoundSample_deserialize_missing_text demo_store (Some 0%nat)) as [Hn Hf].
  split; (split; [reflexivity|]).
  - apply Hn. reflexivity.
  - apply Hf. reflexivity.
Defined.

Lemma Soundboard_deserialize_without_samples_witness :
  has_child_tagged demo_store (Some 0%nat) Soundboard.SAMPLES_KEY = false
  ∧ Soundboard.getSamples (Soundboard.deserialize demo_store (Some 0%nat)) = []
  ∧ ValueTree_hasProperty demo_store (Some 0%nat) Soundboard.NAME_KEY = false
  ∧ Soundboard.getName (Soundboard.deserialize demo_store (Some 0%nat)) = "".
Proof.
  assert (Hno : has_child_tagged demo_store (Some 0%nat) Soundboard.SAMPLES_KEY = false)
    by reflexivity.
  destruct (Soundboard_deserialize_without_samples demo_store (Some 0%nat) Hno)
    as (Hs & _ & Hn).
  split; [exact Hno|]. split; [exact Hs|]. split; [reflexivity|].
  apply Hn. reflexivity.
Defined.

Lemma Soundboard_serialize_layout_witness :
  keys_distinct
  ∧ Soundboard.samples demo_board !! 1%nat
    = Some (SoundSample.new "rimshot" "/sounds/rimshot.ogg" false (-1))
  ∧ let '(tree, st) := Soundboard.serialize (mkObj demo_board demo_store) in
    let child := ValueTree_getChild (heap st) (ValueTree_getChild (heap st) tree 0) 1 in
    ValueTree_getType (heap st) child = "sample"
    ∧ ValueTree_getProperty (heap st) child SoundSample.NAME_KEY = VString "rimshot"
    ∧ ValueTree_getProperty (heap st) child SoundSample.BUTTON_COLOUR_KEY = VInt (-1).
Proof.
  split; [exact demo_keys_distinct|]. split; [reflexivity|].
  pose proof (Soundboard_serialize_layout demo_board demo_store) as Hlayout.
  destruct (Soundboard.serialize (mkObj demo_board demo_store)) as [tree st].
  destruct Hlayout as (_ & _ & _ & _ & _ & _ & Hchildren).
  destruct (Hchildren 1%nat _ eq_refl) as (Hty & _ & _ & _ & _ & Hvals).
  destruct (Hvals demo_keys_distinct) as (Hn & _ & _ & Hc).
  exact (conj Hty (conj Hn Hc)).
Defined.

#[local] Existing Instance demo_colours.



(** The store [Soundboard::serialize] leaves behind: the samples node was
    attached while empty and still shows both samples. *)
Example serialize_demo_board :
  Soundboard.serialize (mkObj demo_board [])
  = (Some 0%nat,
     mkObj demo_board
       [mkSharedObject "soundboard" [("name", VString "effects")] [1%nat] None;
        mkSharedObject "samples" [] [2%nat; 3%nat] (Some 0%nat);
        mkSharedObject "sample"
          [("name", VString "airhorn"); ("filePath", VString "/sounds/airhorn.wav");
           ("loop", VBool true); ("buttonColour", VInt 5)] [] (Some 1%nat);
        mkSharedObject "sample"
          [("name", VString "rimshot"); ("filePath", VString "/sounds/rimshot.ogg");
           ("loop", VBool false); ("buttonColour", VInt (-1))] [] (Some 1%nat)]).
Proof. vm_compute. reflexivity. Qed.

(** A node read from a file holds text only; the conversions of [var]
    bring the flag and the colour back. *)
Example deserialize_text_node :
  SoundSample.deserialize
    [mkSharedObject "sample"
       [("name", VString "clap"); ("filePath", VString "/sounds/clap.wav");
        ("loop", VString "1"); ("buttonColour", VString "-1")] [] None]
    (Some 0%nat)
  = SoundSample.new "clap" "/sounds/clap.wav" true (-1).
Proof. vm_compute. reflexivity. Qed.

End Witnesses.

(** The round trip needs the keys to differ: with one key for the loop flag
    and the colour, the colour is written last and read back as the flag. *)
Example roundtrip_with_clashing_keys :
  let s := SoundSample.new "airhorn" "/sounds/airhorn.wav" false 5 in
  let '(tree, st) := @SoundSample.serialize clashing_sample_keys (mkObj s []) in
  SoundSample.isLoop
    (@SoundSample.deserialize ascii_ops clashing_sample_keys demo_constants (heap st) tree)
  = true.
Proof. vm_compute. reflexivity. Qed.


(** ** What the serialisers do to the store *)

Section StoreEffects.
Context `{SoundSample.Keys} `{Soundboard.Keys}.

(** X1. [SoundSample::serialize] returns a handle that was not valid
    before, adds exactly one node behind the nodes of the store, which all
    stay as they were, and that node is a tree of its own: no parent, no
    children. *)
Theorem SoundSample_serialize_store (s : SoundSample.t) (σ : store) :
  let '(tree, st) := SoundSample.serialize (mkObj s σ) in
  ValueTree_isValid σ tree = false
  ∧ ValueTree_isValid (heap st) tree = true
  ∧ length (heap st) = S (length σ)
  ∧ take (length σ) (heap st) = σ
  ∧ ValueTree_getParent (heap st) tree = None
  ∧ ValueTree_getNumChildren (heap st) tree = 0%nat.
Proof.
  rewrite SoundSample_serialize_eq. cbn [heap].
  unfold ValueTree_isValid, ValueTree_getParent, ValueTree_getNumChildren, deref.
  cbn [mbind option_bind]. rewrite lookup_snoc.
  rewrite (lookup_ge_None_2 σ (length σ)) by lia.
  rewrite length_app, take_app_length. cbn [length]. repeat split. lia.
Qed.

(** X2. [Soundboard::serialize] returns a handle that was not valid
    before and adds two nodes plus one per sample behind the nodes of the
    store, which all stay as they were. *)
Theorem Soundboard_serialize_store (b : Soundboard.t) (σ : store) :
  let '(tree, st) := Soundboard.serialize (mkObj b σ) in
  ValueTree_isValid σ tree = false
  ∧ ValueTree_isValid (heap st) tree = true
  ∧ length (heap st) = (length σ + 2 + length (Soundboard.samples b))%nat
  ∧ take (length σ) (heap st) = σ.
Proof.
  rewrite Soundboard_serialize_eq. cbn [heap].
  unfold ValueTree_isValid, deref. cbn [mbind option_bind].
  rewrite board_nodes_lookup_board.
  rewrite (lookup_ge_None_2 σ (length σ)) by lia.
  rewrite board_nodes_length, take_app_length. repeat split. lia.
Qed.

(** X3. In the tree [Soundboard::serialize] returns the root has no
    parent, the samples node has the root as its parent, and every sample
    node has the samples node as its parent and no children. *)
Theorem Soundboard_serialize_parents (b : Soundboard.t) (σ : store) :
  let '(tree, st) := Soundboard.serialize (mkObj b σ) in
  let h := heap st in
  let samplesTree := ValueTree_getChild h tree 0 in
  ValueTree_getParent h tree = None
  ∧ ValueTree_getParent h samplesTree = tree
  ∧ ∀ i : nat, (i < length (Soundboard.samples b))%nat →
      let child := ValueTree_getChild h samplesTree (Z.of_nat i) in
      ValueTree_isValid h child = true
      ∧ ValueTree_getParent h child = samplesTree
      ∧ ValueTree_getNumChildren h child = 0%nat.
Proof.
  rewrite Soundboard_serialize_eq. cbn [heap]. cbv zeta.
  set (h := σ ++ board_nodes σ b (Soundboard.samples b)).
  assert (Hb : h !! length σ = Some (mkSharedObject Soundboard.SOUNDBOARD_KEY
            [(Soundboard.NAME_KEY, VString (Soundboard.name b))] [S (length σ)] None))
    by apply board_nodes_lookup_board.
  assert (Hs : h !! S (length σ) = Some (mkSharedObject Soundboard.SAMPLES_KEY []
            (seq (S (S (length σ))) (length (Soundboard.samples b))) (Some (length σ))))
    by apply board_nodes_lookup_samples.
  assert (Hc0 : ValueTree_getChild h (Some (length σ)) 0 = Some (S (length σ))).
  { unfold ValueTree_getChild, deref. cbn [mbind option_bind]. by rewrite Hb. }
  rewrite Hc0.
  unfold ValueTree_isValid, ValueTree_getParent, ValueTree_getNumChildren, deref.
  cbn [mbind option_bind]. rewrite Hb, Hs. cbn [parent].
  repeat (split; [done|]). intros i Hi.
  destruct (lookup_lt_is_Some_2 (Soundboard.samples b) i Hi) as [s Hsi].
  pose proof (board_nodes_child σ b i s Hsi) as Hchild. fold h in Hchild.
  rewrite Hchild. cbn [mbind option_bind].
  pose proof (board_nodes_lookup_sample σ b _ i s Hsi) as Hnode. fold h in Hnode.
  by rewrite Hnode.
Qed.

End StoreEffects.

(** ** The pointers of the store stay consistent *)

Section WellFormed.
Context `{SoundSample.Keys} `{Soundboard.Keys}.

Lemma store_wf_old_node (σ new : store) (a : nat) (o : SharedObject) :
  store_wf σ → σ !! a = Some o →
  (∀ c : nat, c ∈ children o → ∃ co, (σ ++ new) !! c = Some co ∧ parent co = Some a)
  ∧ (∀ p : nat, parent o = Some p → ∃ po, (σ ++ new) !! p = Some po ∧ a ∈ children po)
  ∧ NoDup (children o).
Proof.
  intros Hwf Ha. destruct (Hwf a o Ha) as (Hc & Hp & Hn). repeat split; [| |done].
  - intros c Hin. destruct (Hc c Hin) as (co & Hco & Hpar).
    exists co. split; [by apply lookup_app_l_Some | done].
  - intros p Hpar. destruct (Hp p Hpar) as (po & Hpo & Hin).
    exists po. split; [by apply lookup_app_l_Some | done].
Qed.

Lemma store_wf_sample_node (σ : store) (s : SoundSample.t) :
  store_wf σ → store_wf (σ ++ [sample_node s None]).
Proof.
  intros Hwf a o Ha. apply lookup_app_Some in Ha as [Ha | [Hge Ha]].
  - by apply store_wf_old_node.
  - apply list_lookup_singleton_Some in Ha as [_ <-]. cbn [sample_node children parent].
    repeat split; [by intros c Hc%elem_of_nil | done | apply NoDup_nil_2].
Qed.

Lemma store_wf_board_nodes (σ : store) (b : Soundboard.t) :
  store_wf σ → store_wf (σ ++ board_nodes σ b (Soundboard.samples b)).
Proof.
  intros Hwf a o Ha.
  pose proof (board_nodes_lookup_board σ b (Soundboard.samples b)) as Hb.
  pose proof (board_nodes_lookup_samples σ b (Soundboard.samples b)) as Hs.
  apply lookup_app_Some in Ha as [Ha | [Hge Ha]]; [by apply store_wf_old_node|].
  destruct (a - length σ)%nat as [|[|i]] eqn:Hj; unfold board_nodes in Ha; simpl in Ha.
  - (* the soundboard node *)
    assert (a = length σ) as -> by lia. injection Ha as <-. cbn [children parent].
    repeat split; [| done | apply NoDup_singleton].
    intros c ->%list_elem_of_singleton. eexists. split; [exact Hs | done].
  - (* the samples node *)
    assert (a = S (length σ)) as -> by lia. injection Ha as <-. cbn [children parent].
    repeat split; [| | apply NoDup_seq].
    + intros c [Hlo Hhi]%elem_of_seq.
      destruct (lookup_lt_is_Some_2 (Soundboard.samples b) (c - S (S (length σ))))
        as [s Hsi]; [lia|].
      exists (sample_node s (Some (S (length σ)))). split; [|done].
      replace c with (S (S (length σ)) + (c - S (S (length σ))))%nat at 1 by lia.
      by apply board_nodes_lookup_sample.
    + intros p [= <-]. eexists. split; [exact Hb|]. cbn [children].
      by apply list_elem_of_singleton.
  - (* a sample node *)
    rewrite list_lookup_fmap in Ha.
    destruct (Soundboard.samples b !! i) as [s|] eqn:Hsi; [|done].
    injection Ha as <-. cbn [sample_node children parent].
    repeat split; [by intros c Hc%elem_of_nil | | apply NoDup_nil_2].
    intros p [= <-]. eexists. split; [exact Hs|]. cbn [children].
    apply elem_of_seq. apply lookup_lt_Some in Hsi. lia.
Qed.

(** X4. Both serialisers keep the parent and child pointers of the store
    consistent. *)
Theorem serialize_preserves_store_wf (s : SoundSample.t) (b : Soundboard.t) (σ : store) :
  store_wf σ →
  store_wf (heap (SoundSample.serialize (mkObj s σ)).2)
  ∧ store_wf (heap (Soundboard.serialize (mkObj b σ)).2).
Proof.
  intros Hwf. rewrite SoundSample_serialize_eq, Soundboard_serialize_eq. cbn [snd heap].
  split; [by apply store_wf_sample_node | by apply store_wf_board_nodes].
Qed.

End WellFormed.

(** ** Trees built earlier survive later allocations *)

Section Stability.
Context `{StringOps} `{SoundSample.Keys} `{Soundboard.Keys}
        `{SonoPlaybackProgressButton.Constants}.

(** [SoundSample::deserialize] sees the store through the node of its
    argument only. *)
Lemma SoundSample_deserialize_deref (σ1 σ2 : store) (t1 t2 : ValueTree) :
  deref σ1 t1 = deref σ2 t2 →
  SoundSample.deserialize σ1 t1 = SoundSample.deserialize σ2 t2.
Proof.
  intros Hd. unfold SoundSample.deserialize, ValueTree_getProperty,
    ValueTree_getProperty_default. by rewrite Hd.
Qed.

Lemma deref_app_valid (h e : store) (t : ValueTree) (o : SharedObject) :
  deref h t = Some o → deref (h ++ e) t = Some o.
Proof.
  destruct t as [a|]; [|done]. cbn. by apply lookup_app_l_Some.
Qed.

Lemma first_with_type_app (h e : store) (cs : list nat) ty :
  (∀ c : nat, c ∈ cs → is_Some (h !! c)) →
  first_with_type (h ++ e) cs ty = first_with_type h cs ty.
Proof.
  induction cs as [|c cs IH]; intros Hval; [done|]. cbn [first_with_type].
  destruct (Hval c) as [co Hco]; [by left|].
  rewrite (lookup_app_l_Some _ _ _ _ Hco), Hco.
  destruct (decide (type co = ty)); [done|]. apply IH.
  intros d Hd. apply Hval. by right.
Qed.

Lemma first_with_type_elem (σ : store) (cs : list nat) ty (c : nat) :
  first_with_type σ cs ty = Some c →
  c ∈ cs ∧ ∃ co, σ !! c = Some co ∧ type co = ty.
Proof.
  induction cs as [|d cs IH]; [done|]. cbn [first_with_type].
  destruct (σ !! d) as [do|] eqn:Hd.
  - destruct (decide (type do = ty)) as [Hty|Hty].
    + intros [= <-]. split; [by left | by exists do].
    + intros [Hin Hc]%IH. split; [by right | done].
  - intros [Hin Hc]%IH. split; [by right | done].
Qed.

(** Appending nodes to a store does not change what a soundboard tree
    deserialises to, when its children and the children of its children
    are nodes of the store. *)
Lemma Soundboard_deserialize_app (h e : store) (t : ValueTree) (o : SharedObject) :
  deref h t = Some o →
  (∀ c : nat, c ∈ children o → is_Some (h !! c)) →
  (∀ (c : nat) (co : SharedObject), c ∈ children o → h !! c = Some co →
     ∀ d : nat, d ∈ children co → is_Some (h !! d)) →
  Soundboard.deserialize (h ++ e) t = Soundboard.deserialize h t.
Proof.
  intros Ho Hchildren Hgrand. rewrite !Soundboard_deserialize_eq.
  assert (Hst : ValueTree_getChildWithName (h ++ e) t Soundboard.SAMPLES_KEY
                = ValueTree_getChildWithName h t Soundboard.SAMPLES_KEY).
  { unfold ValueTree_getChildWithName. rewrite (deref_app_valid h e t o Ho), Ho.
    by apply first_with_type_app. }
  rewrite Hst.
  assert (Hname : ValueTree_getProperty (h ++ e) t Soundboard.NAME_KEY
                  = ValueTree_getProperty h t Soundboard.NAME_KEY).
  { unfold ValueTree_getProperty. by rewrite (deref_app_valid h e t o Ho), Ho. }
  rewrite Hname.
  destruct (ValueTree_getChildWithName h t Soundboard.SAMPLES_KEY) as [c|] eqn:Hc;
    [|done].
  unfold ValueTree_getChildWithName in Hc. rewrite Ho in Hc.
  apply first_with_type_elem in Hc as (Hin & co & Hco & _).
  assert (Hdc : deref (h ++ e) (Some c) = Some co)
    by (apply deref_app_valid; exact Hco).
  unfold ValueTree_getNumChildren, ValueTree_getChild. rewrite Hdc.
  cbn [deref mbind option_bind]. rewrite Hco. f_equal.
  apply map_ext_in. intros i _.
  replace (0 <=? Z.of_nat i) with true by (symmetry; apply Z.leb_le; lia).
  apply SoundSample_deserialize_deref.
  destruct (children co !! Z.to_nat (Z.of_nat i)) as [d|] eqn:Hd; [|done].
  destruct (Hgrand c co Hin Hco d) as [do Hdo].
  { apply list_elem_of_lookup. eauto. }
  cbn. rewrite Hdo. by apply lookup_app_l_Some.
Qed.

(** X5. In a store with consistent pointers, what a valid tree
    deserialises to, as a sample or as a soundboard, does not change when
    further nodes are allocated. *)
Theorem deserialize_stable_under_allocation (h e : store) (t : ValueTree) :
  store_wf h → ValueTree_isValid h t = true →
  SoundSample.deserialize (h ++ e) t = SoundSample.deserialize h t
  ∧ Soundboard.deserialize (h ++ e) t = Soundboard.deserialize h t.
Proof.
  intros Hwf Hvalid. unfold ValueTree_isValid in Hvalid.
  destruct (deref h t) as [o|] eqn:Ho; [|done]. split.
  - apply SoundSample_deserialize_deref. rewrite Ho. by apply deref_app_valid.
  - destruct t as [a|]; [|done]. cbn in Ho.
    destruct (Hwf a o Ho) as (Hc & _ & _).
    apply (Soundboard_deserialize_app h e (Some a) o Ho).
    + intros c Hin. destruct (Hc c Hin) as (co & Hco & _). by exists co.
    + intros c co Hin Hco d Hd. destruct (Hwf c co Hco) as (Hcc & _ & _).
      destruct (Hcc d Hd) as (do & Hdo & _). by exists do.
Qed.

(** X6. Serialising a second soundboard after a first one leaves the first
    tree readable: in the final store both trees deserialise to their
    soundboards. *)
Theorem serialize_twice_independent (b1 b2 : Soundboard.t) (σ : store) :
  keys_distinct →
  let '(tree1, st1) := Soundboard.serialize (mkObj b1 σ) in
  let '(tree2, st2) := Soundboard.serialize (mkObj b2 (heap st1)) in
  Soundboard.deserialize (heap st2) tree1 = b1
  ∧ Soundboard.deserialize (heap st2) tree2 = b2.
Proof.
  intros Hd. rewrite !Soundboard_serialize_eq. cbn [heap].
  split; [|by apply Soundboard_deserialize_serialize].
  transitivity (Soundboard.deserialize (σ ++ board_nodes σ b1 (Soundboard.samples b1))
                  (Some (length σ)));
    [|by apply Soundboard_deserialize_serialize].
  eapply Soundboard_deserialize_app.
  - cbn. apply board_nodes_lookup_board.
  - cbn [children]. intros c ->%list_elem_of_singleton.
    rewrite board_nodes_lookup_samples. by eexists.
  - cbn [children]. intros c co ->%list_elem_of_singleton Hco.
    rewrite board_nodes_lookup_samples in Hco. injection Hco as <-. cbn [children].
    intros d [Hlo Hhi]%elem_of_seq. apply lookup_lt_is_Some.
    rewrite board_nodes_length. lia.
Qed.

End Stability.

(** ** Editing a tree and reading it back *)

Section TreeEdits.
Context `{StringOps} `{SoundSample.Keys} `{Soundboard.Keys}
        `{SonoPlaybackProgressButton.Constants}.

Lemma deref_setProperty (σ : store) (a : nat) (o : SharedObject) name v :
  σ !! a = Some o →
  deref (ValueTree_setProperty (Some a) name v σ).2 (Some a)
  = Some (with_properties o (NamedValueSet_set (properties o) name v)).
Proof.
  intros Ha. unfold ValueTree_setProperty. rewrite Ha. cbn.
  apply list_lookup_insert_eq. by eapply lookup_lt_Some.
Qed.

Lemma deref_setProperty_ne (σ : store) (t t' : ValueTree) name v :
  t' ≠ t → deref (ValueTree_setProperty t name v σ).2 t' = deref σ t'.
Proof.
  intros Hne. unfold ValueTree_setProperty.
  destruct t as [a|]; [|done]. destruct (σ !! a) as [o|]; [|done].
  destruct t' as [a'|]; [|done]. cbn. apply list_lookup_insert_ne. congruence.
Qed.

(** X7. On a valid tree, setting the property of one of the four keys and
    deserialising gives what the matching setter gives on the sample the
    tree deserialised to before, with the new value converted as the
    field requires. *)
Theorem setProperty_acts_as_setter (σ : store) (tree : ValueTree) (v : var) :
  keys_distinct → ValueTree_isValid σ tree = true →
  let edited name := (ValueTree_setProperty tree name v σ).2 in
  let s := SoundSample.deserialize σ tree in
  SoundSample.deserialize (edited SoundSample.NAME_KEY) tree
    = SoundSample.setName (var_toString v) s
  ∧ SoundSample.deserialize (edited SoundSample.FILE_PATH_KEY) tree
    = SoundSample.setFilePath (var_toString v) s
  ∧ SoundSample.deserialize (edited SoundSample.LOOP_KEY) tree
    = SoundSample.setLoop (var_toBool v) s
  ∧ SoundSample.deserialize (edited SoundSample.BUTTON_COLOUR_KEY) tree
    = SoundSample.setButtonColour (var_toInt v) s.
Proof.
  intros (Hnf & Hnl & Hnc & Hfl & Hfc & Hlc)%keys_distinct_ne Hvalid.
  unfold ValueTree_isValid in Hvalid.
  destruct tree as [a|]; [|done]. cbn in Hvalid.
  destruct (σ !! a) as [o|] eqn:Ha; [|done]. cbv zeta.
  unfold SoundSample.deserialize, ValueTree_getProperty,
    ValueTree_getProperty_default.
  rewrite !(deref_setProperty σ a o) by done. cbn [deref mbind option_bind].
  rewrite Ha. cbn [properties with_properties].
  unfold NamedValueSet_get, NamedValueSet_getWithDefault.
  rewrite !getVarPointer_set_eq.
  rewrite !(getVarPointer_set_ne _ SoundSample.NAME_KEY) by done.
  rewrite !(getVarPointer_set_ne _ SoundSample.FILE_PATH_KEY) by done.
  rewrite !(getVarPointer_set_ne _ SoundSample.LOOP_KEY) by done.
  rewrite !(getVarPointer_set_ne _ SoundSample.BUTTON_COLOUR_KEY) by done.
  by repeat split.
Qed.

(** X8. Setting a property under any other key does not change what the
    tree deserialises to, and setting any property of one tree does not
    change what another tree deserialises to. *)
Theorem setProperty_frame (σ : store) (tree other : ValueTree) (name : Identifier) (v : var) :
  let edited := (ValueTree_setProperty tree name v σ).2 in
  (name ∉ attribute_keys →
   SoundSample.deserialize edited tree = SoundSample.deserialize σ tree)
  ∧ (other ≠ tree →
     SoundSample.deserialize edited other = SoundSample.deserialize σ other).
Proof.
  cbv zeta. split.
  - unfold attribute_keys. rewrite !not_elem_of_cons.
    intros (Hn & Hf & Hl & Hc & _).
    destruct tree as [a|]; [|done].
    destruct (σ !! a) as [o|] eqn:Ha.
    + unfold SoundSample.deserialize, ValueTree_getProperty,
        ValueTree_getProperty_default.
      rewrite !(deref_setProperty σ a o) by done. cbn [deref mbind option_bind].
      rewrite Ha. cbn [properties with_properties].
      unfold NamedValueSet_get, NamedValueSet_getWithDefault.
      by rewrite !(getVarPointer_set_ne _ name) by done.
    + unfold ValueTree_setProperty. by rewrite Ha.
  - intros Hne. apply SoundSample_deserialize_deref. by apply deref_setProperty_ne.
Qed.

(** X9. [Soundboard::deserialize] makes one sample per child of the first
    child tagged "samples", in the order of the children and whatever
    their tags: the sample at position [i] is what [SoundSample::deserialize]
    gives on child [i]. *)
Theorem Soundboard_deserialize_samples (σ : store) (tree : ValueTree) :
  let samplesTree := ValueTree_getChildWithName σ tree Soundboard.SAMPLES_KEY in
  let b := Soundboard.deserialize σ tree in
  length (Soundboard.getSamples b) = ValueTree_getNumChildren σ samplesTree
  ∧ ∀ i : nat, (i < ValueTree_getNumChildren σ samplesTree)%nat →
      Soundboard.getSamples b !! i
      = Some (SoundSample.deserialize σ (ValueTree_getChild σ samplesTree (Z.of_nat i))).
Proof.
  cbv zeta. rewrite Soundboard_deserialize_eq.
  cbn [Soundboard.getSamples Soundboard.samples]. split.
  - by rewrite length_map, length_seq.
  - intros i Hi. rewrite list_lookup_fmap. by rewrite lookup_seq_lt.
Qed.

Lemma first_with_type_skip (σ : store) (pre post : list nat) (c : nat)
    (co : SharedObject) ty :
  (∀ (d : nat) (do : SharedObject), d ∈ pre → σ !! d = Some do → type do ≠ ty) →
  σ !! c = Some co → type co = ty →
  first_with_type σ (pre ++ c :: post) ty = Some c.
Proof.
  intros Hpre Hc Hty. induction pre as [|d pre IH]; cbn [app first_with_type].
  - rewrite Hc. by rewrite decide_True.
  - assert (Hrest : first_with_type σ (pre ++ c :: post) ty = Some c).
    { apply IH. intros e eo He. apply Hpre. by right. }
    destruct (σ !! d) as [do|] eqn:Hd; [|done].
    rewrite decide_False; [done|]. apply (Hpre d do); [by left | done].
Qed.

(** X10. When several children are tagged "samples",
    [Soundboard::deserialize] reads the first of them and no other: the
    samples are those of its children, in order. *)
Theorem Soundboard_deserialize_first_samples_child
    (σ : store) (tree : ValueTree) (o co : SharedObject)
    (pre post : list nat) (c : nat) :
  deref σ tree = Some o →
  children o = pre ++ c :: post →
  (∀ (d : nat) (do : SharedObject), d ∈ pre → σ !! d = Some do →
     type do ≠ Soundboard.SAMPLES_KEY) →
  σ !! c = Some co → type co = Soundboard.SAMPLES_KEY →
  Soundboard.getSamples (Soundboard.deserialize σ tree)
  = map (λ d, SoundSample.deserialize σ (Some d)) (children co).
Proof.
  intros Ho Hch Hpre Hc Hty. rewrite Soundboard_deserialize_eq.
  cbn [Soundboard.getSamples Soundboard.samples].
  assert (Hst : ValueTree_getChildWithName σ tree Soundboard.SAMPLES_KEY = Some c).
  { unfold ValueTree_getChildWithName. rewrite Ho, Hch.
    by apply (first_with_type_skip σ pre post c co). }
  rewrite Hst. unfold ValueTree_getNumChildren, ValueTree_getChild.
  cbn [deref mbind option_bind]. rewrite Hc.
  apply list_eq. intros i. rewrite !list_lookup_fmap.
  destruct (children co !! i) as [d|] eqn:Hd.
  - rewrite lookup_seq_lt by (by eapply lookup_lt_Some). cbn.
    replace (0 <=? Z.of_nat i) with true by (symmetry; apply Z.leb_le; lia).
    by rewrite Nat2Z.id, Hd.
  - apply lookup_ge_None in Hd. rewrite lookup_ge_None_2; [done|].
    by rewrite length_seq.
Qed.

End TreeEdits.

(** ** Nothing else is written *)

Section OnlyTheseAttributes.
Context `{SoundSample.Keys} `{Soundboard.Keys}.

Lemma contains_set_ne values name name' v :
  name ≠ name' →
  NamedValueSet_contains (NamedValueSet_set values name v) name'
  = NamedValueSet_contains values name'.
Proof.
  intros Hne. unfold NamedValueSet_contains. by rewrite getVarPointer_set_ne.
Qed.

Lemma sample_properties_only (s : SoundSample.t) (name : Identifier) :
  name ∉ attribute_keys →
  NamedValueSet_contains (sample_properties s) name = false.
Proof.
  unfold attribute_keys. rewrite !not_elem_of_cons. intros (Hn & Hf & Hl & Hc & _).
  unfold sample_properties. by rewrite !contains_set_ne by done.
Qed.

(** X11. The tree [Soundboard::serialize] returns carries no attribute
    beyond the ones of the layout: the root has the name attribute only,
    the samples node has none, and a sample node has none under a key
    other than the four attribute keys. *)
Theorem Soundboard_serialize_no_other_attribute
    (b : Soundboard.t) (σ : store) (name : Identifier) :
  let '(tree, st) := Soundboard.serialize (mkObj b σ) in
  let h := heap st in
  let samplesTree := ValueTree_getChild h tree 0 in
  (name ≠ Soundboard.NAME_KEY → ValueTree_hasProperty h tree name = false)
  ∧ ValueTree_hasProperty h samplesTree name = false
  ∧ (name ∉ attribute_keys →
     ∀ i : nat,
       ValueTree_hasProperty h (ValueTree_getChild h samplesTree (Z.of_nat i)) name
       = false).
Proof.
  rewrite Soundboard_serialize_eq. cbn [heap]. cbv zeta.
  set (h := σ ++ board_nodes σ b (Soundboard.samples b)).
  assert (Hb : h !! length σ = Some (mkSharedObject Soundboard.SOUNDBOARD_KEY
            [(Soundboard.NAME_KEY, VString (Soundboard.name b))] [S (length σ)] None))
    by apply board_nodes_lookup_board.
  assert (Hs : h !! S (length σ) = Some (mkSharedObject Soundboard.SAMPLES_KEY []
            (seq (S (S (length σ))) (length (Soundboard.samples b))) (Some (length σ))))
    by apply board_nodes_lookup_samples.
  assert (Hc0 : ValueTree_getChild h (Some (length σ)) 0 = Some (S (length σ))).
  { unfold ValueTree_getChild, deref. cbn [mbind option_bind]. by rewrite Hb. }
  rewrite Hc0. repeat split.
  - intros Hne. unfold ValueTree_hasProperty, deref. cbn [mbind option_bind].
    rewrite Hb. unfold NamedValueSet_contains. cbn [properties NamedValueSet_getVarPointer].
    by rewrite decide_False.
  - unfold ValueTree_hasProperty, deref. cbn [mbind option_bind]. by rewrite Hs.
  - intros Hname i.
    destruct (Soundboard.samples b !! i) as [s|] eqn:Hsi.
    + pose proof (board_nodes_child σ b i s Hsi) as Hchild. fold h in Hchild.
      rewrite Hchild. unfold ValueTree_hasProperty, deref. cbn [mbind option_bind].
      pose proof (board_nodes_lookup_sample σ b _ i s Hsi) as Hnode. fold h in Hnode.
      rewrite Hnode. cbn [sample_node properties]. by apply sample_properties_only.
    + apply lookup_ge_None in Hsi.
      unfold ValueTree_getChild, deref. cbn [mbind option_bind]. rewrite Hs.
      cbn [children].
      replace (0 <=? Z.of_nat i) with true by (symmetry; apply Z.leb_le; lia).
      rewrite Nat2Z.id, lookup_ge_None_2 by (by rewrite length_seq).
      done.
Qed.

End OnlyTheseAttributes.

(** ** The further theorems at work on concrete stores *)

Lemma store_wf_check_sound (σ : store) : store_wf_check σ = true → store_wf σ.
Proof.
  unfold store_wf_check. rewrite forallb_forall. intros Hall a o Ha.
  specialize (Hall a). rewrite Ha in Hall.
  assert (Hnode : node_wf_check σ a o = true).
  { apply Hall. apply in_seq. apply lookup_lt_Some in Ha. lia. }
  unfold node_wf_check in Hnode.
  apply andb_prop in Hnode as [Hnode Hnodup]. apply andb_prop in Hnode as [Hch Hpar].
  rewrite forallb_forall in Hch. apply bool_decide_eq_true in Hnodup. repeat split.
  - intros c Hc%list_elem_of_In. specialize (Hch c Hc). destruct (σ !! c) as [co|].
    + exists co. split; [done|]. by apply bool_decide_eq_true in Hch.
    + done.
  - intros p Hp. rewrite Hp in Hpar. destruct (σ !! p) as [po|]; [|done].
    exists po. split; [done|]. by apply bool_decide_eq_true in Hpar.
  - done.
Qed.

Section FurtherWitnesses.
#[local] Existing Instance ascii_ops.
#[local] Existing Instance demo_sample_keys.
#[local] Existing Instance demo_board_keys.
#[local] Existing Instance demo_constants.

Lemma demo_store_wf : store_wf demo_store.
Proof. apply store_wf_check_sound. vm_compute. reflexivity. Defined.

Lemma two_samples_store_wf : store_wf two_samples_store.
Proof. apply store_wf_check_sound. vm_compute. reflexivity. Defined.

Lemma Soundboard_serialize_parents_witness :
  (1 < length (Soundboard.samples demo_board))%nat
  ∧ let '(tree, st) := Soundboard.serialize (mkObj demo_board demo_store) in
    let samplesTree := ValueTree_getChild (heap st) tree 0 in
    let child := ValueTree_getChild (heap st) samplesTree (Z.of_nat 1) in
    ValueTree_getParent (heap st) child = samplesTree
    ∧ ValueTree_getNumChildren (heap st) child = 0%nat.
Proof.
  assert (Hi : (1 < length (Soundboard.samples demo_board))%nat) by (cbn; lia).
  split; [exact Hi|].
  pose proof (Soundboard_serialize_parents demo_board demo_store) as Hparents.
  destruct (Soundboard.serialize (mkObj demo_board demo_store)) as [tree st].
  destruct Hparents as (_ & _ & Hchildren).
  destruct (Hchildren 1%nat Hi) as (_ & Hparent & Hleaf).
  exact (conj Hparent Hleaf).
Defined.

Lemma serialize_preserves_store_wf_witness :
  store_wf demo_store
  ∧ store_wf (heap (SoundSample.serialize (mkObj demo_sample demo_store)).2)
  ∧ store_wf (heap (Soundboard.serialize (mkObj demo_board demo_store)).2).
Proof.
  split; [exact demo_store_wf|].
  pose proof (serialize_preserves_store_wf demo_sample demo_board demo_store
                demo_store_wf) as Hwf.
  exact Hwf.
Defined.

Lemma deserialize_stable_under_allocation_witness :
  let later := [mkSharedObject "samples" [] [] None] in
  store_wf two_samples_store
  ∧ ValueTree_isValid two_samples_store (Some 0%nat) = true
  ∧ SoundSample.deserialize (two_samples_store ++ later) (Some 0%nat)
    = SoundSample.deserialize two_samples_store (Some 0%nat)
  ∧ Soundboard.deserialize (two_samples_store ++ later) (Some 0%nat)
    = Soundboard.deserialize two_samples_store (Some 0%nat).
Proof.
  cbv zeta. split; [exact two_samples_store_wf|]. split; [reflexivity|].
  pose proof (deserialize_stable_under_allocation two_samples_store
                [mkSharedObject "samples" [] [] None] (Some 0%nat)
                two_samples_store_wf eq_refl) as Hstable.
  exact Hstable.
Defined.

Lemma serialize_twice_independent_witness :
  keys_distinct
  ∧ let '(tree1, st1) := Soundboard.serialize (mkObj demo_board demo_store) in
    let '(tree2, st2) :=
      Soundboard.serialize (mkObj (Soundboard.new "empty") (heap st1)) in
    Soundboard.deserialize (heap st2) tree1 = demo_board
    ∧ Soundboard.deserialize (heap st2) tree2 = Soundboard.new "empty".
Proof.
  split; [exact demo_keys_distinct|].
  pose proof (serialize_twice_independent demo_board (Soundboard.new "empty")
                demo_store demo_keys_distinct) as Htwice.
  exact Htwice.
Defined.

Lemma setProperty_acts_as_setter_witness :
  keys_distinct
  ∧ ValueTree_isValid demo_store (Some 1%nat) = true
  ∧ let edited name :=
      (ValueTree_setProperty (Some 1%nat) name (VInt 3) demo_store).2 in
    let s := SoundSample.deserialize demo_store (Some 1%nat) in
    SoundSample.deserialize (edited SoundSample.NAME_KEY) (Some 1%nat)
      = SoundSample.setName (var_toString (VInt 3)) s
    ∧ SoundSample.deserialize (edited SoundSample.FILE_PATH_KEY) (Some 1%nat)
      = SoundSample.setFilePath (var_toString (VInt 3)) s
    ∧ SoundSample.deserialize (edited SoundSample.LOOP_KEY) (Some 1%nat)
      = SoundSample.setLoop (var_toBool (VInt 3)) s
    ∧ SoundSample.deserialize (edited SoundSample.BUTTON_COLOUR_KEY) (Some 1%nat)
      = SoundSample.setButtonColour (var_toInt (VInt 3)) s.
Proof.
  split; [exact demo_keys_distinct|]. split; [reflexivity|].
  pose proof (setProperty_acts_as_setter demo_store (Some 1%nat) (VInt 3)
                demo_keys_distinct eq_refl) as Hset.
  exact Hset.
Defined.

Lemma setProperty_frame_witness :
  let edited := (ValueTree_setProperty (Some 1%nat) "volume" (VInt 9) demo_store).2 in
  (("volume" ∉ attribute_keys)
   ∧ SoundSample.deserialize edited (Some 1%nat)
     = SoundSample.deserialize demo_store (Some 1%nat))
  ∧ (Some 0%nat ≠ Some 1%nat
     ∧ SoundSample.deserialize edited (Some 0%nat)
       = SoundSample.deserialize demo_store (Some 0%nat)).
Proof.
  cbv zeta.
  assert (Hname : "volume" ∉ attribute_keys)
    by (apply (bool_decide_unpack _); vm_compute; reflexivity).
  assert (Hother : Some 0%nat ≠ Some 1%nat) by discriminate.
  destruct (setProperty_frame demo_store (Some 1%nat) (Some 0%nat) "volume" (VInt 9))
    as [Hsame Hframe].
  split; split; [exact Hname | exact (Hsame Hname) | exact Hother | exact (Hframe Hother)].
Defined.

Lemma Soundboard_deserialize_samples_witness :
  let samplesTree :=
    ValueTree_getChildWithName two_samples_store (Some 0%nat) Soundboard.SAMPLES_KEY in
  (0 < ValueTree_getNumChildren two_samples_store samplesTree)%nat
  ∧ Soundboard.getSamples (Soundboard.deserialize two_samples_store (Some 0%nat)) !! 0%nat
    = Some (SoundSample.deserialize two_samples_store
              (ValueTree_getChild two_samples_store samplesTree (Z.of_nat 0))).
Proof.
  cbv zeta.
  assert (Hi : (0 < ValueTree_getNumChildren two_samples_store
                      (ValueTree_getChildWithName two_samples_store (Some 0%nat)
                         Soundboard.SAMPLES_KEY))%nat)
    by (vm_compute; lia).
  split; [exact Hi|].
  destruct (Soundboard_deserialize_samples two_samples_store (Some 0%nat)) as [_ Hsamples].
  exact (Hsamples 0%nat Hi).
Defined.

Lemma Soundboard_deserialize_first_samples_child_witness :
  Soundboard.getSamples (Soundboard.deserialize two_samples_store (Some 0%nat))
  = [SoundSample.deserialize two_samples_store (Some 4%nat)].
Proof.
  apply (Soundboard_deserialize_first_samples_child two_samples_store (Some 0%nat)
           (mkSharedObject "soundboard" [("name", VString "mixed")]
              [1%nat; 2%nat; 3%nat] None)
           (mkSharedObject "samples" [] [4%nat] (Some 0%nat))
           [1%nat] [3%nat] 2%nat).
  - reflexivity.
  - reflexivity.
  - intros d do ->%list_elem_of_singleton [= <-]. discriminate.
  - reflexivity.
  - reflexivity.
Defined.

Lemma Soundboard_serialize_no_other_attribute_witness :
  "volume" ≠ Soundboard.NAME_KEY
  ∧ ("volume" ∉ attribute_keys)
  ∧ let '(tree, st) := Soundboard.serialize (mkObj demo_board demo_store) in
    let samplesTree := ValueTree_getChild (heap st) tree 0 in
    ValueTree_hasProperty (heap st) tree "volume" = false
    ∧ ValueTree_hasProperty (heap st)
        (ValueTree_getChild (heap st) samplesTree (Z.of_nat 1)) "volume" = false.
Proof.
  assert (Hname : "volume" ≠ Soundboard.NAME_KEY) by discriminate.
  assert (Hkeys : "volume" ∉ attribute_keys)
    by (apply (bool_decide_unpack _); vm_compute; reflexivity).
  split; [exact Hname|]. split; [exact Hkeys|].
  pose proof (Soundboard_serialize_no_other_attribute demo_board demo_store "volume")
    as Honly.
  destruct (Soundboard.serialize (mkObj demo_board demo_store)) as [tree st].
  destruct Honly as (Hroot & _ & Hsamples).
  exact (conj (Hroot Hname) (Hsamples Hkeys 1%nat)).
Defined.

End FurtherWitnesses.
